(** * go-fetch-rss: a shallow embedding of [go-fetch-rss.go] and its properties

    The program fetches an RSS feed, keeps the items published on a target
    date and downloads each of them, except that a redirect to a URL whose
    scheme is the configured "redirect extension" is recorded in a pointer
    file instead of being followed.

    Everything the program does is an effect (console output, HTTP requests,
    file writes), so [main] is embedded in a small monad [Go] that threads
    the chronological trace of effects and can return, panic or run out of
    fuel.  The Go standard library and the network are not part of the
    repository: they are the fields of the class [Env], and every theorem
    holds for all of them.  [Module Double] gives one concrete [Env] on which
    the program can be run. *)

From Stdlib Require Import String Ascii List ZArith Bool Lia.
From Stdlib Require Import Strings.Byte.
Import ListNotations.
Local Open Scope string_scope.
Local Open Scope Z_scope.
Local Open Scope list_scope.

(** ** Errors, readers, effects *)

(** A Go [error] value: [errors.New] and the standard library's own errors
    are [errorString]s, [*url.Error] is what the HTTP client wraps its
    failures in. *)
Inductive error : Type :=
| errorString (s : string)
| url_Error (Op URL : string) (Err : error).

Module errors.
Definition New (s : string) : error := errorString s.
End errors.

Module io.
(** A response body: the bytes a reader delivers and the error, if any,
    that ends the stream before EOF. *)
Record Reader : Type := { data : list byte; err : option error }.

(** [io.ReadAll]: the bytes read so far together with the read error; EOF
    is not an error. *)
Definition ReadAll (r : Reader) : list byte * option error := (data r, err r).
End io.

(** An operand of [fmt.Printf]. [AStringer None] is a nil pointer whose
    [String] method is called by [%s]. *)
Inductive Arg : Type :=
| AStr (s : string)
| ABool (b : bool)
| AInt (n : Z)
| AErr (e : option error)
| AStringer (s : option string).

(** The observable effects. Format strings are kept as the source writes
    them (escape sequences unexpanded); a request is recorded by the text of
    its URL. *)
Inductive Event : Type :=
| Printf (format : string) (args : list Arg)
| Println (s : string)
| Send (url : string)
| WriteFile (name : string) (data : list byte) (perm : Z).

Definition Trace : Type := list Event.

(** ** The feed, as the source declares it *)

Record Item : Type := {
  Title : string;
  Guid : string;
  PublishDate : string;
  Link : string
}.

Record Channel : Type := {
  Channel_Title : string;
  Items : list Item
}.

Record Response : Type := { Ch : Channel }.

(** The zero value of [Response], what [var r Response] declares. *)
Definition Response_zero : Response :=
  {| Ch := {| Channel_Title := EmptyString; Items := [] |} |}.

Definition dateFormat : string := "2006-01-02".

(** The command-line flags, after [flag.Parse]. *)
Record Flags : Type := {
  url : string;
  outputDir : string;
  fileExtension : string;
  redirectFileExtension : string;
  targetDate : string;
  dryRun : bool;
  verbose : bool
}.

(** ** The environment: standard library and network *)

(** What a server answers on the wire: status line, [Location] header
    (empty when absent) and body. *)
Record Wire : Type := {
  wire_status : Z;
  wire_location : string;
  wire_body : io.Reader
}.

Class Env : Type := {
  (** [net/url] *)
  URL : Type;
  Scheme : URL -> string;
  URL_String : URL -> string;
  url_Parse : string -> URL + error;
  (** the [Parse] method of a URL: a reference resolved against a base *)
  URL_Parse : URL -> string -> URL + error;
  (** [time] *)
  Time : Type;
  time_Parse : string -> string -> Time + error;
  Time_Format : Time -> string -> string;
  (** [encoding/xml]: the value left in [v] and the error returned *)
  xml_Unmarshal : list byte -> Response -> Response * option error;
  (** [path] *)
  path_Join : list string -> string;
  (** the transport: one request on the wire; the answer may depend on
      everything the program has done so far *)
  RoundTrip : Trace -> URL -> Wire + error
}.

(** ** The monad of effects *)

Inductive Run (A : Type) : Type :=
| Returns (a : A) (tr : Trace)
| Panics (msg : string) (tr : Trace)
| OutOfFuel.
Arguments Returns {A} a tr.
Arguments Panics {A} msg tr.
Arguments OutOfFuel {A}.

Definition Go (A : Type) : Type := Trace -> Run A.

Definition ret {A} (a : A) : Go A := fun tr => Returns a tr.

Definition bind {A B} (m : Go A) (f : A -> Go B) : Go B :=
  fun tr =>
    match m tr with
    | Returns a tr' => f a tr'
    | Panics msg tr' => Panics msg tr'
    | OutOfFuel => OutOfFuel
    end.

Definition emit (e : Event) : Go unit := fun tr => Returns tt (tr ++ [e]).

Definition panic {A} (msg : string) : Go A := fun tr => Panics msg tr.

Definition diverge {A} : Go A := fun _ => OutOfFuel.

Declare Scope go_scope.
Delimit Scope go_scope with go.
Notation "x <- m ;; k" := (bind m (fun x => k))
  (at level 61, m at next level, right associativity) : go_scope.
Notation "m ;; k" := (bind m (fun _ => k))
  (at level 61, right associativity) : go_scope.
Notation "' p <- m ;; k" := (bind m (fun x => match x with p => k end))
  (at level 61, p pattern, m at next level, right associativity) : go_scope.
Local Open Scope go_scope.

(** [for _, x := range xs { body }], the body ending normally or by
    [continue]. *)
Fixpoint range {A} (xs : list A) (body : A -> Go unit) : Go unit :=
  match xs with
  | [] => ret tt
  | x :: xs' => body x ;; range xs' body
  end.

(** The dereference of a nil pointer. *)
Definition nil_dereference : string :=
  "runtime error: invalid memory address or nil pointer dereference".

Module fmt.
Definition Printf (format : string) (args : list Arg) : Go unit :=
  emit (Printf format args).
Definition Println (s : string) : Go unit := emit (Println s).

(** [fmt.Sprintf] for formats whose only verb is [%s] and whose operands
    are strings. *)
Fixpoint Sprintf (format : string) (args : list string) : string :=
  match format with
  | EmptyString => EmptyString
  | String "%" (String "s" rest) =>
      match args with
      | a :: args' => (a ++ Sprintf rest args')%string
      | [] => ("%!s(MISSING)" ++ Sprintf rest [])%string
      end
  | String c rest => String c (Sprintf rest args)
  end.
End fmt.

Module os.
(** [os.WriteFile], its error dropped as the callers drop it. *)
Definition WriteFile (name : string) (data : list byte) (perm : Z) : Go unit :=
  emit (WriteFile name data perm).
End os.

(** ** net/http: responses and the redirect-following client

    The part of the client that decides what [Get] returns to the program,
    after the package's documentation: a GET follows the statuses 301, 302,
    303, 307 and 308; before each hop the redirect policy is asked, and when
    it fails the client returns the last response together with the error;
    any other failure returns an error and no response. *)

Module http.
Section WithEnv.
Context {env : Env}.

Definition StatusOK : Z := 200.
Definition StatusFound : Z := 302.

(** [Request_URL] is the URL of the request the response answers
    ([resp.Request.URL]). *)
Record Response : Type := {
  StatusCode : Z;
  Header_Location : string;
  Body : io.Reader;
  Request_URL : URL
}.

(** [Req_Response] is the redirect response that caused the request to be
    created; nil for the first request. *)
Record Request : Type := {
  Req_URL : URL;
  Req_Response : option Response
}.

Definition ErrNoLocation : error :=
  errors.New "http: no Location header in response".

(** The [Location] method of a response. *)
Definition Location (r : Response) : URL + error :=
  let lv := Header_Location r in
  if String.eqb lv EmptyString then inr ErrNoLocation
  else URL_Parse (Request_URL r) lv.

Record Client : Type := {
  CheckRedirect : option (Request -> list Request -> Go (option error))
}.

Definition DefaultClient : Client := {| CheckRedirect := None |}.

Definition defaultCheckRedirect (req : Request) (via : list Request)
  : Go (option error) :=
  if (10 <=? Z.of_nat (length via))
  then ret (Some (errors.New "stopped after 10 redirects"))
  else ret None.

Definition checkRedirect (c : Client) (req : Request) (via : list Request)
  : Go (option error) :=
  match CheckRedirect c with
  | None => defaultCheckRedirect req via
  | Some fn => fn req via
  end.

(** [redirectBehavior] for a GET without body: the statuses the client
    follows. *)
Definition shouldRedirect (status : Z) : bool :=
  (status =? 301) || (status =? 302) || (status =? 303)
  || (status =? 307) || (status =? 308).

(** One request on the wire. *)
Definition send (req : Request) : Go (Response + error) :=
  fun tr =>
    let r := match RoundTrip tr (Req_URL req) with
             | inl w => inl {| StatusCode := wire_status w;
                               Header_Location := wire_location w;
                               Body := wire_body w;
                               Request_URL := Req_URL req |}
             | inr e => inr e
             end in
    Returns r (tr ++ [Send (URL_String (Req_URL req))]).

(** The client's [do] loop: send [req]; while the answer is a redirect with a
    [Location], build the next request and ask the redirect policy; a
    policy error returns the redirect response together with the error.
    [fuel] bounds the number of requests sent. *)
Fixpoint Client_do (c : Client) (fuel : nat) (req : Request)
    (reqs : list Request) : Go (option Response * option error) :=
  match fuel with
  | O => diverge
  | S fuel' =>
      let reqs := reqs ++ [req] in
      r <- send req ;;
      match r with
      | inr e =>
          ret (None, Some (url_Error "Get" (URL_String (Req_URL req)) e))
      | inl resp =>
          if negb (shouldRedirect (StatusCode resp)) then ret (Some resp, None)
          else
            let loc := Header_Location resp in
            if String.eqb loc EmptyString then ret (Some resp, None)
            else
              match URL_Parse (Req_URL req) loc with
              | inr e =>
                  ret (None, Some (url_Error "Get" (URL_String (Req_URL req)) e))
              | inl u =>
                  let req' := {| Req_URL := u; Req_Response := Some resp |} in
                  err <- checkRedirect c req' reqs ;;
                  match err with
                  | Some e => ret (Some resp, Some (url_Error "Get" loc e))
                  | None => Client_do c fuel' req' reqs
                  end
              end
      end
  end.

(** The client's [Get] method. *)
Definition Client_Get (c : Client) (fuel : nat) (url : string)
  : Go (option Response * option error) :=
  match url_Parse url with
  | inr e => ret (None, Some e)
  | inl u => Client_do c fuel {| Req_URL := u; Req_Response := None |} []
  end.

(** [http.Get] *)
Definition Get (fuel : nat) (url : string)
  : Go (option Response * option error) :=
  Client_Get DefaultClient fuel url.
End WithEnv.
End http.

(** ** The program *)

(** [x, _ := f()]: the value, nil when [f] failed. *)
Definition value_of {A} (r : A + error) : option A :=
  match r with
  | inl a => Some a
  | inr _ => None
  end.

Section Program.
Context {env : Env}.
Variable flags : Flags.
(** The bound on the requests one [Get] may send before the run counts as
    not terminating. *)
Variable fuel : nat.

(** The redirect policy of the custom client (source lines 66-76). *)
Definition main_CheckRedirect (req : http.Request) (via : list http.Request)
  : Go (option error) :=
  match http.Req_Response req with
  | None => panic nil_dereference
  | Some resp =>
      let loc := value_of (http.Location resp) in
      (* If the scheme matches our wanted redir file ext, return an error
         to stop the follow. *)
      match loc with
      | Some l =>
          if String.eqb (Scheme l) (redirectFileExtension flags)
          then ret (Some (errors.New "caught redirect"))
          else ret None
      | None => ret None
      end
  end.

Definition client : http.Client :=
  {| http.CheckRedirect := Some main_CheckRedirect |}.

(** What the loop body does with the answer of [client.Get] (source lines
    103-124); every [continue] is the end of a branch. *)
Definition main_fetched (item : Item) (itemRes : option http.Response)
    (err : option error) : Go unit :=
  match err, itemRes with
  | Some e, Some res =>
      (* Handle redirects by saving the URL to a file *)
      if http.StatusCode res =? http.StatusFound then
        let loc := value_of (http.Location res) in
        fmt.Printf "Got 302. Writing %s\n"
          [AStringer (option_map URL_String loc)] ;;
        match loc with
        | None => panic nil_dereference
        | Some l =>
            os.WriteFile
              (path_Join [outputDir flags;
                          fmt.Sprintf "%s.%s"
                            [Title item; redirectFileExtension flags]])
              (list_byte_of_string (URL_String l)) 438 (* 0666 *)
        end
      else
        (* Every other error is unknown so exit *)
        fmt.Printf "Error fetching: %s err: %s\n"
          [AStr (Title item); AErr err]
  | Some e, None =>
      fmt.Printf "Error fetching: %s err: %s\n"
        [AStr (Title item); AErr err]
  | None, None => panic nil_dereference
  | None, Some res =>
      (* Otherwise fetch the actual file *)
      (if http.StatusCode res =? http.StatusOK then
         fmt.Printf "Writing %s\n" [AStr (Title item)] ;;
         let '(bytes, _) := io.ReadAll (http.Body res) in
         os.WriteFile
           (path_Join [outputDir flags;
                       fmt.Sprintf "%s.%s"
                         [Title item; fileExtension flags]])
           bytes 438 (* 0666 *)
       else ret tt) ;;
      fmt.Printf "Done %s\n" [AStr (Title item)]
  end.

(** The body of the loop over the items (source lines 80-101, then
    [main_fetched]). *)
Definition main_body (item : Item) : Go unit :=
  match time_Parse "Mon, 2 Jan 2006 15:04:05 +0000" (PublishDate item) with
  | inr e =>
      fmt.Printf "Err parsing time: %s %s\n" [AStr (Title item); AErr (Some e)]
  | inl t =>
      if negb (String.eqb (targetDate flags) (Time_Format t dateFormat)) then
        if verbose flags then
          fmt.Printf "Skipping, date mismatch: %s %s\n"
            [AStr (Title item); AStr (Time_Format t dateFormat)]
        else ret tt
      else if dryRun flags then
        fmt.Printf "Skipping download, dry run enabled %s\n%s\n"
          [AStr (Title item); AStr (Link item)]
      else
        fmt.Printf "Doing %s\n" [AStr (Title item)] ;;
        ' (itemRes, err) <- http.Client_Get client fuel (Link item) ;;
        main_fetched item itemRes err
  end.

Definition main : Go unit :=
  if String.eqb (url flags) EmptyString then
    fmt.Println "Error, URL is required."
  else
    fmt.Printf
      "go-fetch-rss DryRun: %t Date: %s OutputDir: %s FileExtension: %s URL: %s\n"
      [ABool (dryRun flags); AStr (targetDate flags); AStr (outputDir flags);
       AStr (fileExtension flags); AStr (url flags)] ;;
    ' (res, err) <- http.Get fuel (url flags) ;;
    match res with
    | None => panic nil_dereference
    | Some res =>
        if negb (http.StatusCode res =? 200) then
          fmt.Printf "Error fetching! %s" [AErr err]
        else
          let '(resBody, _) := io.ReadAll (http.Body res) in
          let '(r, _) := xml_Unmarshal resBody Response_zero in
          fmt.Printf "Found %d items, starting download...\n"
            [AInt (Z.of_nat (length (Items (Ch r))))] ;;
          range (Items (Ch r)) main_body ;;
          fmt.Println "Done all!"
    end.
End Program.

(** ** Observations on a trace *)

(** The files written, in order: name and content of every [os.WriteFile]. *)
Definition writes (evs : Trace) : list (string * list byte) :=
  flat_map (fun e => match e with
                     | WriteFile name data _ => [(name, data)]
                     | _ => []
                     end) evs.

(** The HTTP requests sent, in order. *)
Definition requests (evs : Trace) : list string :=
  flat_map (fun e => match e with
                     | Send u => [u]
                     | _ => []
                     end) evs.

(** The per-item error reports ([Error fetching: ...]). *)
Definition fetch_errors (evs : Trace) : list (list Arg) :=
  flat_map (fun e => match e with
                     | Printf format args =>
                         if String.eqb format "Error fetching: %s err: %s\n"
                         then [args] else []
                     | _ => []
                     end) evs.

(** ** The vocabulary of the properties *)

Section Vocabulary.
Context {env : Env}.
Variable flags : Flags.
Variable fuel : nat.

(** The publish date of an item under the layout of the program. *)
Definition parsed (item : Item) : Time + error :=
  time_Parse "Mon, 2 Jan 2006 15:04:05 +0000" (PublishDate item).

(** The report that opens the download of an item. *)
Definition doing (item : Item) : Event :=
  Printf "Doing %s\n" [AStr (Title item)].

(** The answer of [client.Get] for an item reached with trace [tr]. *)
Definition fetch (item : Item) (tr : Trace)
  : Run (option http.Response * option error) :=
  http.Client_Get (client flags) fuel (Link item) (tr ++ [doing item]).

(** The file of an item in the output directory. *)
Definition file_name (item : Item) (ext : string) : string :=
  path_Join [outputDir flags; (Title item ++ "." ++ ext)%string].

(** The condition of source line 104. *)
Definition redirect_found (itemRes : option http.Response)
    (err : option error) : bool :=
  match err, itemRes with
  | Some _, Some res => http.StatusCode res =? http.StatusFound
  | _, _ => false
  end.

(** The first line the program prints. *)
Definition banner : Event :=
  Printf
    "go-fetch-rss DryRun: %t Date: %s OutputDir: %s FileExtension: %s URL: %s\n"
    [ABool (dryRun flags); AStr (targetDate flags); AStr (outputDir flags);
     AStr (fileExtension flags); AStr (url flags)].

(** What a [Get] of the custom client can return: a final response, a
    redirect response stopped by the policy together with the policy's
    error, or an error alone. *)
Inductive fetched : option http.Response -> option error -> Prop :=
| fetched_final resp :
    http.shouldRedirect (http.StatusCode resp) = false
    \/ http.Header_Location resp = EmptyString ->
    fetched (Some resp) None
| fetched_caught resp loc e :
    http.shouldRedirect (http.StatusCode resp) = true ->
    http.Location resp = inl loc ->
    Scheme loc = redirectFileExtension flags ->
    fetched (Some resp) (Some e)
| fetched_failed e :
    fetched None (Some e).

(** A run that returned [r], having appended only requests to the trace. *)
Definition only_sends {A} (P : A -> Prop) (tr : Trace) (run : Run A) : Prop :=
  match run with
  | Returns r tr' => P r /\ exists urls, tr' = tr ++ map Send urls
  | Panics _ _ => False
  | OutOfFuel => True
  end.
End Vocabulary.

(** ** A concrete environment

    A stand-in for the standard library on which the program runs inside
    Rocq: URLs are a scheme and the rest, [time.Parse] and [Time.Format]
    implement the two layouts the program uses, [path.Join] joins and cleans
    lexically.  The feed decoder and the network are arguments. *)

Module Double.
Definition code (c : ascii) : Z := Z.of_N (N_of_ascii c).
Definition is_digit (c : ascii) : bool := (48 <=? code c) && (code c <=? 57).
Definition is_upper (c : ascii) : bool := (65 <=? code c) && (code c <=? 90).
Definition is_lower (c : ascii) : bool := (97 <=? code c) && (code c <=? 122).
Definition to_lower (c : ascii) : ascii :=
  if is_upper c then ascii_of_N (Z.to_N (code c + 32)) else c.

Fixpoint lower (s : string) : string :=
  match s with
  | EmptyString => EmptyString
  | String c s' => String (to_lower c) (lower s')
  end.

(** *** net/url *)

Record url : Type := { scheme : string; rest : string }.

(** The scheme before the first colon and what follows it, when the text
    starts with a scheme. *)
Fixpoint getScheme (first : bool) (s : string) : option (string * string) :=
  match s with
  | EmptyString => None
  | String c s' =>
      let more := option_map (fun p => (String c (fst p), snd p))
                             (getScheme false s') in
      if is_upper c || is_lower c then more
      else if is_digit c || Ascii.eqb c "+" || Ascii.eqb c "-"
              || Ascii.eqb c "."
      then (if first then None else more)
      else if Ascii.eqb c ":"
      then (if first then None else Some (EmptyString, s'))
      else None
  end.

Definition parse (raw : string) : url + error :=
  match raw with
  | String ":" _ =>
      inr (url_Error "parse" raw (errors.New "missing protocol scheme"))
  | _ =>
      match getScheme true raw with
      | Some (sch, r) => inl {| scheme := lower sch; rest := r |}
      | None => inl {| scheme := EmptyString; rest := raw |}
      end
  end.

Definition url_String (u : url) : string :=
  if String.eqb (scheme u) EmptyString then rest u
  else (scheme u ++ ":" ++ rest u)%string.

Fixpoint until_slash (s : string) : string :=
  match s with
  | EmptyString => EmptyString
  | String c s' => if Ascii.eqb c "/" then EmptyString
                   else String c (until_slash s')
  end.

(** [//host] of a hierarchical URL. *)
Definition authority (r : string) : string :=
  match r with
  | String "/" (String "/" r') => ("//" ++ until_slash r')%string
  | _ => EmptyString
  end.

Definition resolve (base : url) (ref : string) : url + error :=
  match parse ref with
  | inr e => inr e
  | inl r =>
      if negb (String.eqb (scheme r) EmptyString) then inl r
      else
        let target :=
          match rest r with
          | String "/" (String "/" _) => rest r
          | String "/" _ => (authority (rest base) ++ rest r)%string
          | _ => (authority (rest base) ++ "/" ++ rest r)%string
          end in
        inl {| scheme := scheme base; rest := target |}
  end.

(** *** time: the layout [Mon, 2 Jan 2006 15:04:05 +0000] *)

Record time : Type := {
  year : Z; month : Z; day : Z; hour : Z; minute : Z; second : Z
}.

Fixpoint cutspace (s : string) : string :=
  match s with
  | String " " s' => cutspace s'
  | _ => s
  end.

(** The literal text between two layout elements; a space of the layout
    stands for any run of spaces of the value. *)
Fixpoint skip (after_space : bool) (prefix value : string) : option string :=
  match prefix with
  | EmptyString => Some value
  | String p prefix' =>
      if Ascii.eqb p " " then
        if after_space then skip true prefix' value
        else
          match value with
          | String v _ =>
              if Ascii.eqb v " " then skip true prefix' (cutspace value)
              else None
          | EmptyString => skip true prefix' value
          end
      else
        match value with
        | String v value' =>
            if Ascii.eqb v p then skip false prefix' value' else None
        | EmptyString => None
        end
  end.

Definition digit (c : ascii) : Z := code c - 48.

(** One or two digits; exactly two when [fixed]. *)
Definition getnum (s : string) (fixed : bool) : option (Z * string) :=
  match s with
  | String a (String b s') =>
      if is_digit a then
        if is_digit b then Some (digit a * 10 + digit b, s')
        else if fixed then None else Some (digit a, String b s')
      else None
  | String a EmptyString =>
      if is_digit a && negb fixed then Some (digit a, EmptyString) else None
  | EmptyString => None
  end.

(** A prefix of the value equal to a name, letter case ignored. *)
Fixpoint match_name (name value : string) : option string :=
  match name, value with
  | EmptyString, _ => Some value
  | String n name', String v value' =>
      if Ascii.eqb (to_lower n) (to_lower v) && is_lower (to_lower v)
      then match_name name' value' else None
  | _, EmptyString => None
  end.

Fixpoint lookup (tab : list string) (i : Z) (value : string)
  : option (Z * string) :=
  match tab with
  | [] => None
  | name :: tab' =>
      match match_name name value with
      | Some value' => Some (i, value')
      | None => lookup tab' (i + 1) value
      end
  end.

Definition shortDayNames : list string :=
  ["Sun"; "Mon"; "Tue"; "Wed"; "Thu"; "Fri"; "Sat"].
Definition shortMonthNames : list string :=
  ["Jan"; "Feb"; "Mar"; "Apr"; "May"; "Jun";
   "Jul"; "Aug"; "Sep"; "Oct"; "Nov"; "Dec"].

Definition longYear (s : string) : option (Z * string) :=
  match s with
  | String a (String b (String c (String d s'))) =>
      if is_digit a && is_digit b && is_digit c && is_digit d
      then Some (((digit a * 10 + digit b) * 10 + digit c) * 10 + digit d, s')
      else None
  | _ => None
  end.

Fixpoint cutdigits (s : string) : string :=
  match s with
  | String c s' => if is_digit c then cutdigits s' else s
  | EmptyString => s
  end.

(** A fractional second the layout does not ask for is accepted and
    dropped. *)
Definition cutfraction (s : string) : string :=
  match s with
  | String p (String d s') =>
      if (Ascii.eqb p "." || Ascii.eqb p ",") && is_digit d
      then cutdigits s' else s
  | _ => s
  end.

Definition isLeap (y : Z) : bool :=
  (y mod 4 =? 0) && (negb (y mod 100 =? 0) || (y mod 400 =? 0)).

Definition daysIn (m y : Z) : Z :=
  if m =? 2 then (if isLeap y then 29 else 28)
  else if (m =? 4) || (m =? 6) || (m =? 9) || (m =? 11) then 30
  else 31.

Definition bad (value what : string) : error :=
  errors.New ("parsing time " ++ value ++ ": " ++ what).

Definition opt_bind {A B} (o : option A) (f : A -> option B) : option B :=
  match o with
  | Some a => f a
  | None => None
  end.

Definition parse_fields (value : string) : option (time * string) :=
  opt_bind (lookup shortDayNames 0 value) (fun '(_, v) =>
  opt_bind (skip false ", " v) (fun v =>
  opt_bind (getnum v false) (fun '(d, v) =>
  opt_bind (skip false " " v) (fun v =>
  opt_bind (lookup shortMonthNames 1 v) (fun '(mo, v) =>
  opt_bind (skip false " " v) (fun v =>
  opt_bind (longYear v) (fun '(y, v) =>
  opt_bind (skip false " " v) (fun v =>
  opt_bind (getnum v false) (fun '(h, v) =>
  opt_bind (skip false ":" v) (fun v =>
  opt_bind (getnum v true) (fun '(mi, v) =>
  opt_bind (skip false ":" v) (fun v =>
  opt_bind (getnum v true) (fun '(s, v) =>
  opt_bind (skip false " +0000" (cutfraction v)) (fun v =>
  Some ({| year := y; month := mo; day := d;
           hour := h; minute := mi; second := s |}, v))))))))))))))).

Definition time_parse (layout value : string) : time + error :=
  if negb (String.eqb layout "Mon, 2 Jan 2006 15:04:05 +0000")
  then inr (bad value "layout not supported")
  else
    match parse_fields value with
    | None => inr (bad value "cannot parse")
    | Some (t, extra) =>
        if negb (String.eqb extra EmptyString) then inr (bad value "extra text")
        else if (24 <=? hour t) then inr (bad value "hour out of range")
        else if (60 <=? minute t) then inr (bad value "minute out of range")
        else if (60 <=? second t) then inr (bad value "second out of range")
        else if (day t <? 1) || (daysIn (month t) (year t) <? day t)
        then inr (bad value "day out of range")
        else inl t
    end.

(** The [width] low decimal digits of [n]. *)
Fixpoint decimal (width : nat) (n : Z) : string :=
  match width with
  | O => EmptyString
  | S w => (decimal w (n / 10)
            ++ String (ascii_of_N (Z.to_N (48 + n mod 10))) EmptyString)%string
  end.

Definition time_format (t : time) (layout : string) : string :=
  if String.eqb layout "2006-01-02"
  then (decimal 4 (year t) ++ "-" ++ decimal 2 (month t)
        ++ "-" ++ decimal 2 (day t))%string
  else layout.

(** *** path *)

Fixpoint split (acc : string) (s : string) : list string :=
  match s with
  | EmptyString => [acc]
  | String c s' =>
      if Ascii.eqb c "/" then acc :: split EmptyString s'
      else split (acc ++ String c EmptyString)%string s'
  end.

(** The elements kept by [Clean], last first. *)
Fixpoint clean (rooted : bool) (stack : list string) (segs : list string)
  : list string :=
  match segs with
  | [] => stack
  | seg :: segs' =>
      if String.eqb seg EmptyString || String.eqb seg "." then
        clean rooted stack segs'
      else if String.eqb seg ".." then
        match stack with
        | top :: stack' =>
            if String.eqb top ".." then clean rooted (seg :: stack) segs'
            else clean rooted stack' segs'
        | [] => if rooted then clean rooted [] segs'
                else clean rooted [seg] segs'
        end
      else clean rooted (seg :: stack) segs'
  end.

Definition Clean (p : string) : string :=
  let rooted := match p with String "/" _ => true | _ => false end in
  let kept := rev (clean rooted [] (split EmptyString p)) in
  let body := String.concat "/" kept in
  if rooted then ("/" ++ body)%string
  else if String.eqb body EmptyString then "." else body.

Definition Join (elem : list string) : string :=
  match filter (fun e => negb (String.eqb e EmptyString)) elem with
  | [] => EmptyString
  | parts => Clean (String.concat "/" parts)
  end.

(** *** The environment *)

Definition world (feed : list byte -> Response * option error)
    (net : Trace -> string -> Wire + error) : Env :=
  {| URL := url;
     Scheme := scheme;
     URL_String := url_String;
     url_Parse := parse;
     URL_Parse := resolve;
     Time := time;
     time_Parse := time_parse;
     Time_Format := time_format;
     xml_Unmarshal := fun data _ => feed data;
     path_Join := Join;
     RoundTrip := fun tr u => net tr (url_String u) |}.
End Double.

(** ** Scenarios: concrete feeds and networks *)

Module Scenario.
Definition flags : Flags :=
  {| url := "http://feed.example/rss?q=x";
     outputDir := "out";
     fileExtension := "file";
     redirectFileExtension := "magnet";
     targetDate := "2024-01-11";
     dryRun := false;
     verbose := false |}.

Definition dry : Flags :=
  {| url := "http://feed.example/rss?q=x";
     outputDir := "out";
     fileExtension := "file";
     redirectFileExtension := "magnet";
     targetDate := "2024-01-11";
     dryRun := true;
     verbose := true |}.

Definition ep1 : Item :=
  {| Title := "ep1"; Guid := "g1";
     PublishDate := "Thu, 11 Jan 2024 21:00:00 +0000";
     Link := "http://files.example/get/1" |}.

Definition ep2 : Item :=
  {| Title := "ep2"; Guid := "g2";
     PublishDate := "Wed, 10 Jan 2024 09:30:00 +0000";
     Link := "http://files.example/get/2" |}.

Definition ep3 : Item :=
  {| Title := "ep3"; Guid := "g3";
     PublishDate := "2024-01-11T21:00:00Z";
     Link := "http://files.example/get/3" |}.

Definition feed : Response :=
  {| Ch := {| Channel_Title := "episodes"; Items := [ep1; ep2; ep3] |} |}.

Definition answer (status : Z) (location : string) (body : string)
    (failure : option error) : Wire + error :=
  inl {| wire_status := status; wire_location := location;
         wire_body := {| io.data := list_byte_of_string body;
                         io.err := failure |} |}.

(** A network that answers by URL, whatever happened before. *)
Fixpoint serve (table : list (string * (Wire + error))) (tr : Trace)
    (u : string) : Wire + error :=
  match table with
  | [] => inr (errors.New "dial tcp: lookup failed: no such host")
  | (u', w) :: table' => if String.eqb u u' then w else serve table' tr u
  end.

Definition feed_ok : string * (Wire + error) :=
  ("http://feed.example/rss?q=x", answer 200 EmptyString "<rss>" None).

Definition magnet : string := "magnet:?xt=urn:btih:abc".

(** The link answers 200 after one ordinary redirect. *)
Definition net_ok : Trace -> string -> Wire + error :=
  serve [feed_ok;
         ("http://files.example/get/1", answer 301 "/mirror/1" EmptyString None);
         ("http://files.example/mirror/1", answer 200 EmptyString "ABC" None)].

(** The body of the 200 answer breaks off after two bytes. *)
Definition net_short : Trace -> string -> Wire + error :=
  serve [feed_ok;
         ("http://files.example/get/1",
          answer 200 EmptyString "AB" (Some (errors.New "unexpected EOF")))].

(** The link redirects to the sentinel scheme with the given status. *)
Definition net_redirect (status : Z) : Trace -> string -> Wire + error :=
  serve [feed_ok;
         ("http://files.example/get/1", answer status magnet EmptyString None)].

Definition net_missing : Trace -> string -> Wire + error :=
  serve [feed_ok;
         ("http://files.example/get/1", answer 404 EmptyString "gone" None)].

Definition net_down : Trace -> string -> Wire + error :=
  serve [].

(** A decoder that stops at a syntax error after the first item. *)
Definition broken (data : list byte) : Response * option error :=
  ({| Ch := {| Channel_Title := "episodes"; Items := [ep1] |} |},
   Some (errors.New "XML syntax error on line 9: unexpected EOF")).

Definition decoded (data : list byte) : Response * option error :=
  (feed, None).

(** The example of the specification: one item, answered 200 with [ABC]. *)
Definition single (data : list byte) : Response * option error :=
  ({| Ch := {| Channel_Title := "episodes"; Items := [ep1] |} |}, None).

Definition net_plain : Trace -> string -> Wire + error :=
  serve [feed_ok;
         ("http://files.example/get/1", answer 200 EmptyString "ABC" None)].

Definition next_day : Flags :=
  {| url := "http://feed.example/rss?q=x";
     outputDir := "out";
     fileExtension := "file";
     redirectFileExtension := "magnet";
     targetDate := "2024-01-12";
     dryRun := false;
     verbose := false |}.
End Scenario.

(** ** The earlier version of the program

    The version of the downloader without the custom client: every item is
    fetched with [http.Get], so the default redirect policy applies and a
    redirect is never captured. *)

Module v1.
Section Program.
Context {env : Env}.
Variable flags : Flags.
Variable fuel : nat.

(** The body of the loop over the items (lines 63-96 of that version). *)
Definition main_body (item : Item) : Go unit :=
  match time_Parse "Mon, 2 Jan 2006 15:04:05 +0000" (PublishDate item) with
  | inr e =>
      fmt.Printf "Err parsing time: %s %s\n" [AStr (Title item); AErr (Some e)]
  | inl t =>
      if negb (String.eqb (targetDate flags) (Time_Format t dateFormat)) then
        if verbose flags then
          fmt.Printf "Skipping, date mismatch: %s %s\n"
            [AStr (Title item); AStr (Time_Format t dateFormat)]
        else ret tt
      else if dryRun flags then
        fmt.Printf "Skipping download, dry run enabled %s\n%s\n"
          [AStr (Title item); AStr (Link item)]
      else
        fmt.Printf "Doing %s\n" [AStr (Title item)] ;;
        ' (itemRes, err) <- http.Get fuel (Link item) ;;
        match err with
        | Some _ =>
            fmt.Printf "Error fetching: %s err: %s\n"
              [AStr (Title item); AErr err]
        | None =>
            match itemRes with
            | None => panic nil_dereference
            | Some res =>
                (if http.StatusCode res =? 200 then
                   fmt.Printf "Writing %s\n" [AStr (Title item)] ;;
                   let '(bytes, _) := io.ReadAll (http.Body res) in
                   os.WriteFile
                     (path_Join [outputDir flags;
                                 fmt.Sprintf "%s.%s"
                                   [Title item; fileExtension flags]])
                     bytes 438 (* 0666 *)
                 else ret tt) ;;
                fmt.Printf "Done %s\n" [AStr (Title item)]
            end
        end
  end.

Definition main : Go unit :=
  if String.eqb (url flags) EmptyString then
    fmt.Println "Error, URL is required."
  else
    fmt.Printf
      "go-fetch-rss DryRun: %t Date: %s OutputDir: %s FileExtension: %s URL: %s\n"
      [ABool (dryRun flags); AStr (targetDate flags); AStr (outputDir flags);
       AStr (fileExtension flags); AStr (url flags)] ;;
    ' (res, err) <- http.Get fuel (url flags) ;;
    match res with
    | None => panic nil_dereference
    | Some res =>
        if negb (http.StatusCode res =? 200) then
          fmt.Printf "Error fetching! %s" [AErr err]
        else
          let '(resBody, _) := io.ReadAll (http.Body res) in
          let '(r, _) := xml_Unmarshal resBody Response_zero in
          fmt.Printf "Found %d items, starting download...\n"
            [AInt (Z.of_nat (length (Items (Ch r))))] ;;
          range (Items (Ch r)) main_body ;;
          fmt.Println "Done all!"
    end.
End Program.
End v1.

(** ** More vocabulary *)

Section MoreVocabulary.
Context {env : Env}.
Variable flags : Flags.

(** A written file that belongs to an item: its content file or its capture
    file. *)
Definition item_file (item : Item) (w : string * list byte) : Prop :=
  fst w = file_name flags item (fileExtension flags)
  \/ fst w = file_name flags item (redirectFileExtension flags).

(** A network on which every request is answered by a redirect the custom
    policy lets through. *)
Definition always_redirects : Prop :=
  forall (tr : Trace) (u : URL),
    exists w u',
      RoundTrip tr u = inl w
      /\ http.shouldRedirect (wire_status w) = true
      /\ wire_location w <> EmptyString
      /\ URL_Parse u (wire_location w) = inl u'
      /\ Scheme u' <> redirectFileExtension flags.

(** The outcome of a run whose trace is [tr] extended by events that
    satisfy [P]; a run out of fuel has no trace to speak of. *)
Definition extends {A} (P : Trace -> Prop) (tr : Trace) (run : Run A) : Prop :=
  match run with
  | Returns _ tr' | Panics _ tr' => exists evs, tr' = tr ++ evs /\ P evs
  | OutOfFuel => True
  end.
End MoreVocabulary.

Module Cases.
(** Every URL answers with a redirect to the same ordinary URL. *)
Definition net_loop (tr : Trace) (u : string) : Wire + error :=
  Scenario.answer 302 "http://files.example/again" EmptyString None.


(** An item whose link is not a URL. *)
Definition ep_bad_link : Item :=
  {| Title := "ep4"; Guid := "g4";
     PublishDate := "Thu, 11 Jan 2024 08:00:00 +0000";
     Link := ":no-scheme" |}.

Definition ok : Env := Double.world Scenario.decoded Scenario.net_ok.
Definition plain : Env := Double.world Scenario.single Scenario.net_plain.
Definition looping : Env := Double.world Scenario.decoded net_loop.
Definition down : Env := Double.world Scenario.decoded Scenario.net_down.
Definition redirecting : Env :=
  Double.world Scenario.decoded (Scenario.net_redirect 302).

Definition link1 : Double.url :=
  {| Double.scheme := "http"; Double.rest := "//files.example/get/1" |}.
Definition mirror1 : Double.url :=
  {| Double.scheme := "http"; Double.rest := "//files.example/mirror/1" |}.
Definition magnet_url : Double.url :=
  {| Double.scheme := "magnet"; Double.rest := "?xt=urn:btih:abc" |}.
End Cases.

(** ** The playlist generator ([folder-to-m3u.go])

    The two helpers of the playlist generator. Go strings are byte strings,
    [string] here. *)

Module strings.
Section WithUnicode.
(** [strings.Map(unicode.ToLower, s)], the path [ToLower] takes for a string
    with a byte outside ASCII. *)
Variable Map_ToLower : string -> string.

Definition is_ascii (c : ascii) : bool := (N_of_ascii c <? 128)%N.

Definition lower_byte (c : ascii) : ascii :=
  if ((65 <=? N_of_ascii c) && (N_of_ascii c <=? 90))%N
  then ascii_of_N (N_of_ascii c + 32) else c.

Fixpoint all_ascii (s : string) : bool :=
  match s with
  | EmptyString => true
  | String c s' => is_ascii c && all_ascii s'
  end.

Fixpoint lower_bytes (s : string) : string :=
  match s with
  | EmptyString => EmptyString
  | String c s' => String (lower_byte c) (lower_bytes s')
  end.

(** [strings.ToLower]: the byte-wise path for ASCII strings, the Unicode
    mapping otherwise. *)
Definition ToLower (s : string) : string :=
  if all_ascii s then lower_bytes s else Map_ToLower s.
End WithUnicode.
End strings.

Module filepath.
(** The backward scan of [filepath.Ext] (slash-separated paths): [rest] is
    the path read from its end, [suffix] what was read so far. *)
Fixpoint scan_back (rest : list ascii) (suffix : list ascii) : list ascii :=
  match rest with
  | [] => []
  | c :: rest' =>
      if Ascii.eqb c "/" then []
      else if Ascii.eqb c "." then c :: suffix
      else scan_back rest' (c :: suffix)
  end.

(** [filepath.Ext]: the suffix from the last dot of the last element of the
    path, empty when that element has no dot. *)
Definition Ext (path : string) : string :=
  string_of_list_ascii (scan_back (rev (list_ascii_of_string path)) []).
End filepath.

Module playlist.
Section Helpers.
Variable Map_ToLower : string -> string.

(** [isAudioFile] (lines 115-122). *)
Definition isAudioFile (path : string) : bool :=
  let ext := strings.ToLower Map_ToLower (filepath.Ext path) in
  if String.eqb ext ".mp3" || String.eqb ext ".flac" || String.eqb ext ".wav"
     || String.eqb ext ".ogg" || String.eqb ext ".m4a"
  then true
  else false.
End Helpers.

(** The calls [writeM3U] makes on the file system. *)
Inductive Op : Type :=
| Create (name : string)
| WriteString (s : string)
| Close.


Section WithDisk.
(** [os.Create]: the error, if it fails. *)
Variable create : string -> option error.
(** [f.WriteString] after the calls made so far: the error, if it fails. *)
Variable write : list Op -> string -> option error.


End WithDisk.






(** A string without dot and without slash. *)
Fixpoint plain (s : string) : bool :=
  match s with
  | EmptyString => true
  | String c s' => negb (Ascii.eqb c ".") && negb (Ascii.eqb c "/") && plain s'
  end.
End playlist.

Module PlaylistCases.



(** No Unicode mapping is needed for ASCII names. *)
Definition no_unicode (s : string) : string := s.
End PlaylistCases.

(** ** The custom client *)

Section ClientFacts.
Context {env : Env}.
Variable flags : Flags.

Lemma Client_do_fetched (fuel : nat) :
  forall req reqs tr,
    only_sends (fun r => fetched flags (fst r) (snd r)) tr
               (http.Client_do (client flags) fuel req reqs tr).
Proof.
  induction fuel as [|fuel IH]; intros req reqs tr; simpl; [exact I|].
  unfold bind at 1, http.send.
  set (u := URL_String (http.Req_URL req)).
  destruct (RoundTrip tr (http.Req_URL req)) as [w|e]; simpl.
  2:{ unfold ret; simpl. split; [constructor|]. now exists [u]. }
  destruct (http.shouldRedirect (wire_status w)) eqn:Hs; simpl.
  2:{ unfold ret; simpl. split; [constructor; now left|]. now exists [u]. }
  destruct (String.eqb (wire_location w) EmptyString) eqn:Hl; simpl.
  { unfold ret; simpl. split; [|now exists [u]].
    constructor. right. simpl. now apply String.eqb_eq. }
  destruct (URL_Parse (http.Req_URL req) (wire_location w)) as [l|e] eqn:Hp.
  2:{ unfold ret; simpl. split; [constructor|]. now exists [u]. }
  unfold bind, http.checkRedirect; simpl.
  unfold main_CheckRedirect, http.Location; simpl.
  rewrite Hl, Hp; simpl.
  destruct (String.eqb (Scheme l) (redirectFileExtension flags)) eqn:Hc;
    unfold ret; simpl.
  - split; [|now exists [u]].
    apply fetched_caught with (loc := l); simpl; auto.
    + unfold http.Location; simpl. now rewrite Hl.
    + now apply String.eqb_eq.
  - match goal with
    | |- only_sends _ _ (http.Client_do _ _ ?rq ?rs ?t) =>
        specialize (IH rq rs t);
        destruct (http.Client_do (client flags) fuel rq rs t)
          as [[res e] tr'| |]; simpl in *; auto
    end.
    destruct IH as [Hf [urls ->]]. split; [exact Hf|].
    exists (u :: urls). now rewrite <- app_assoc.
Qed.

Lemma Client_Get_fetched (fuel : nat) (link : string) (tr : Trace) :
  only_sends (fun r => fetched flags (fst r) (snd r)) tr
             (http.Client_Get (client flags) fuel link tr).
Proof.
  unfold http.Client_Get. destruct (url_Parse link) as [u|e].
  - apply Client_do_fetched.
  - unfold ret; simpl. split; [constructor|].
    exists []. now rewrite app_nil_r.
Qed.
End ClientFacts.

(** ** Fuel *)

Section Fuel.
Context {env : Env}.


(** A result obtained with some fuel is the result with any more fuel. *)
Lemma Client_do_more_fuel (c : http.Client) (fuel : nat) :
  forall fuel' req reqs tr r tr',
    (fuel <= fuel')%nat ->
    http.Client_do c fuel req reqs tr = Returns r tr' ->
    http.Client_do c fuel' req reqs tr = Returns r tr'.
Proof.
  induction fuel as [|fuel IH]; intros fuel' req reqs tr r tr' Hle H;
    [discriminate|].
  destruct fuel' as [|fuel']; [lia|].
  simpl in *. unfold bind in *.
  destruct (http.send req tr) as [[resp|e] tr0|m tr0|]; auto.
  destruct (negb (http.shouldRedirect (http.StatusCode resp))); auto.
  destruct (String.eqb (http.Header_Location resp) EmptyString); auto.
  destruct (URL_Parse (http.Req_URL req) (http.Header_Location resp))
    as [u|e]; auto.
  destruct (http.checkRedirect c _ _ tr0) as [[e|] tr2|m tr2|]; auto.
  apply IH; [lia|exact H].
Qed.

Lemma Client_Get_more_fuel (c : http.Client) (fuel fuel' : nat) link tr r tr' :
  (fuel <= fuel')%nat ->
  http.Client_Get c fuel link tr = Returns r tr' ->
  http.Client_Get c fuel' link tr = Returns r tr'.
Proof.
  unfold http.Client_Get. destruct (url_Parse link); auto.
  apply Client_do_more_fuel.
Qed.


End Fuel.

(** ** The loop body *)

Section BodyFacts.
Context {env : Env}.
Variable flags : Flags.
Variable fuel : nat.

Lemma append_empty (s : string) : (s ++ EmptyString)%string = s.
Proof. induction s as [|c s IH]; simpl; [reflexivity | now rewrite IH]. Qed.

Lemma Sprintf_name (a b : string) :
  fmt.Sprintf "%s.%s" [a; b] = (a ++ "." ++ b)%string.
Proof. simpl. now rewrite append_empty. Qed.

Lemma writes_app (xs ys : Trace) : writes (xs ++ ys) = writes xs ++ writes ys.
Proof. apply flat_map_app. Qed.


Lemma fetch_errors_app (xs ys : Trace) :
  fetch_errors (xs ++ ys) = fetch_errors xs ++ fetch_errors ys.
Proof. apply flat_map_app. Qed.

Lemma writes_sends (urls : list string) : writes (map Send urls) = [].
Proof. induction urls; simpl; auto. Qed.

Lemma fetch_errors_sends (urls : list string) :
  fetch_errors (map Send urls) = [].
Proof. induction urls; simpl; auto. Qed.

(** An item that passes the date filter, outside dry-run, is fetched and
    the answer handed to [main_fetched]. *)
Lemma main_body_fetch (item : Item) (tr : Trace) (t : Time) :
  parsed item = inl t ->
  targetDate flags = Time_Format t dateFormat ->
  dryRun flags = false ->
  main_body flags fuel item tr =
  match fetch flags fuel item tr with
  | Returns (itemRes, err) tr1 => main_fetched flags item itemRes err tr1
  | Panics msg tr1 => Panics msg tr1
  | OutOfFuel => OutOfFuel
  end.
Proof.
  unfold parsed, fetch, main_body. intros -> <- ->.
  rewrite String.eqb_refl. simpl. unfold bind. simpl.
  destruct (http.Client_Get _ _ _ _) as [[itemRes err] tr1| |]; reflexivity.
Qed.

(** The answer of a fetch that returned: its shape, and a trace extended
    by requests only. *)
Lemma fetch_returns (item : Item) (tr : Trace) itemRes err tr1 :
  fetch flags fuel item tr = Returns (itemRes, err) tr1 ->
  fetched flags itemRes err
  /\ exists urls, tr1 = tr ++ doing item :: map Send urls.
Proof.
  unfold fetch. intros H.
  pose proof (Client_Get_fetched flags fuel (Link item) (tr ++ [doing item]))
    as F.
  rewrite H in F. simpl in F. destruct F as [F [urls ->]].
  split; [exact F|]. exists urls. now rewrite <- app_assoc.
Qed.

Lemma fetch_no_panic (item : Item) (tr : Trace) msg tr1 :
  fetch flags fuel item tr <> Panics msg tr1.
Proof.
  unfold fetch. intros H.
  pose proof (Client_Get_fetched flags fuel (Link item) (tr ++ [doing item]))
    as F.
  now rewrite H in F.
Qed.
(** The four branches of [main_fetched]. *)

Lemma main_fetched_capture (item : Item) res e loc (tr : Trace) :
  http.StatusCode res = 302 ->
  http.Location res = inl loc ->
  main_fetched flags item (Some res) (Some e) tr
  = Returns tt
      (tr ++ [Printf "Got 302. Writing %s\n" [AStringer (Some (URL_String loc))];
              WriteFile (file_name flags item (redirectFileExtension flags))
                        (list_byte_of_string (URL_String loc)) 438]).
Proof.
  intros Hst Hloc. unfold main_fetched, file_name.
  rewrite Hst, Hloc, Sprintf_name. simpl.
  unfold bind, fmt.Printf, os.WriteFile, emit.
  now rewrite <- app_assoc.
Qed.

Lemma main_fetched_error (item : Item) itemRes e (tr : Trace) :
  redirect_found itemRes (Some e) = false ->
  main_fetched flags item itemRes (Some e) tr
  = Returns tt (tr ++ [Printf "Error fetching: %s err: %s\n"
                         [AStr (Title item); AErr (Some e)]]).
Proof.
  unfold main_fetched, redirect_found. destruct itemRes as [res|]; [|reflexivity].
  now intros ->.
Qed.

Lemma main_fetched_ok (item : Item) res (tr : Trace) :
  http.StatusCode res = 200 ->
  main_fetched flags item (Some res) None tr
  = Returns tt
      (tr ++ [Printf "Writing %s\n" [AStr (Title item)];
              WriteFile (file_name flags item (fileExtension flags))
                        (io.data (http.Body res)) 438;
              Printf "Done %s\n" [AStr (Title item)]]).
Proof.
  intros Hst. unfold main_fetched, file_name.
  rewrite Hst, Sprintf_name. simpl.
  unfold bind, fmt.Printf, os.WriteFile, emit.
  now rewrite <- !app_assoc.
Qed.

Lemma main_fetched_other (item : Item) res (tr : Trace) :
  http.StatusCode res <> 200 ->
  main_fetched flags item (Some res) None tr
  = Returns tt (tr ++ [Printf "Done %s\n" [AStr (Title item)]]).
Proof.
  intros Hst. unfold main_fetched.
  apply Z.eqb_neq in Hst. unfold http.StatusOK. rewrite Hst. reflexivity.
Qed.

(** The effects of an item: the opening report, the requests of the fetch,
    and what the branch taken adds. *)
Lemma item_trace (tr : Trace) (item : Item) (urls : list string) (tail : Trace) :
  (tr ++ doing item :: map Send urls) ++ tail
  = tr ++ doing item :: map Send urls ++ tail.
Proof. now rewrite <- app_assoc. Qed.

Lemma item_writes (item : Item) (urls : list string) (tail : Trace) :
  writes (doing item :: map Send urls ++ tail) = writes tail.
Proof.
  change (doing item :: map Send urls ++ tail)
    with ([doing item] ++ map Send urls ++ tail).
  now rewrite !writes_app, writes_sends.
Qed.

Lemma item_fetch_errors (item : Item) (urls : list string) (tail : Trace) :
  fetch_errors (doing item :: map Send urls ++ tail) = fetch_errors tail.
Proof.
  change (doing item :: map Send urls ++ tail)
    with ([doing item] ++ map Send urls ++ tail).
  now rewrite !fetch_errors_app, fetch_errors_sends.
Qed.
End BodyFacts.

(** An item that is fetched: [main_body] becomes [main_fetched] on the answer,
    the answer is one of the three shapes of [fetched], and the trace of the
    fetch is the opening report followed by requests. *)
Ltac fetched_item Hp Hd Hdry Hf F urls :=
  rewrite (main_body_fetch _ _ _ _ _ Hp Hd Hdry), Hf;
  destruct (fetch_returns _ _ _ _ _ _ _ Hf) as [F [urls ->]].

(** A response of status 200 is not a redirect, one of status 302 is. *)
Ltac status_clash H Hst :=
  unfold http.shouldRedirect in H; rewrite Hst in H; discriminate H.

Section LoopFacts.
Context {env : Env}.
Variable flags : Flags.
Variable fuel : nat.

(** A body that returns hands the trace to the next item. *)
Lemma range_next {A} (body : A -> Go unit) (x : A) (xs : list A) tr tr' :
  body x tr = Returns tt tr' ->
  range (x :: xs) body tr = range xs body tr'.
Proof. intros H. simpl. unfold bind. now rewrite H. Qed.

Lemma main_fetched_no_panic (item : Item) itemRes err tr msg tr' :
  fetched flags itemRes err ->
  main_fetched flags item itemRes err tr <> Panics msg tr'.
Proof.
  intros F. destruct F as [resp _|resp loc e _ Hloc _|e]; simpl.
  - unfold bind. destruct (http.StatusCode resp =? http.StatusOK); simpl;
      [destruct (io.ReadAll (http.Body resp))|]; discriminate.
  - destruct (http.StatusCode resp =? http.StatusFound); [|discriminate].
    rewrite Hloc. discriminate.
  - discriminate.
Qed.

(** The loop body never dereferences nil. *)
Lemma main_body_no_panic (item : Item) (tr : Trace) msg tr' :
  main_body flags fuel item tr <> Panics msg tr'.
Proof.
  destruct (parsed item) as [t|e] eqn:Hp.
  2:{ unfold main_body. unfold parsed in Hp. rewrite Hp. discriminate. }
  destruct (String.eqb (targetDate flags) (Time_Format t dateFormat)) eqn:Hd.
  2:{ unfold main_body. unfold parsed in Hp. rewrite Hp, Hd. simpl.
      destruct (verbose flags); discriminate. }
  destruct (dryRun flags) eqn:Hdry.
  { unfold main_body. unfold parsed in Hp. rewrite Hp, Hd, Hdry. discriminate. }
  apply String.eqb_eq in Hd.
  rewrite (main_body_fetch flags fuel item tr t Hp Hd Hdry).
  destruct (fetch flags fuel item tr) as [[itemRes err] tr1|m tr1|] eqn:Hf.
  - apply main_fetched_no_panic.
    now destruct (fetch_returns flags fuel item tr _ _ _ Hf).
  - now apply fetch_no_panic in Hf.
  - discriminate.
Qed.

Lemma range_no_panic (items : list Item) :
  forall tr msg tr', range items (main_body flags fuel) tr <> Panics msg tr'.
Proof.
  induction items as [|item items IH]; intros tr msg tr'; simpl; [discriminate|].
  unfold bind.
  destruct (main_body flags fuel item tr) as [[] tr1|m tr1|] eqn:Hb.
  - apply IH.
  - now apply main_body_no_panic in Hb.
  - discriminate.
Qed.

(** Under dry-run the loop body returns without a request or a write. *)
Lemma main_body_dry (item : Item) (tr : Trace) :
  dryRun flags = true ->
  exists evs, main_body flags fuel item tr = Returns tt (tr ++ evs)
              /\ requests evs = [] /\ writes evs = [].
Proof.
  intros Hdry. unfold main_body.
  destruct (time_Parse _ (PublishDate item)) as [t|e].
  - destruct (String.eqb (targetDate flags) (Time_Format t dateFormat)); simpl.
    + rewrite Hdry. eexists; repeat split; reflexivity.
    + destruct (verbose flags).
      * eexists; repeat split; reflexivity.
      * exists []. rewrite app_nil_r. repeat split; reflexivity.
  - eexists; repeat split; reflexivity.
Qed.

(** The run once the feed is fetched and decoded: whatever error the
    decoder returned is dropped. *)
Lemma main_decoded (tr : Trace) res err tr1 r derr :
  url flags <> EmptyString ->
  http.Get fuel (url flags) (tr ++ [banner flags]) = Returns (Some res, err) tr1 ->
  http.StatusCode res = 200 ->
  xml_Unmarshal (io.data (http.Body res)) Response_zero = (r, derr) ->
  main flags fuel tr =
  (range (Items (Ch r)) (main_body flags fuel) ;; fmt.Println "Done all!")
    (tr1 ++ [Printf "Found %d items, starting download...\n"
               [AInt (Z.of_nat (length (Items (Ch r))))]]).
Proof.
  intros Hurl Hget Hst Hxml. unfold main.
  apply String.eqb_neq in Hurl. rewrite Hurl.
  unfold bind at 1. simpl. unfold bind at 1. fold (banner flags).
  rewrite Hget. rewrite Hst. simpl. rewrite Hxml. reflexivity.
Qed.

(** A feed fetch that returns no response: line 52 dereferences nil. *)
Lemma main_feed_nil (tr : Trace) err tr1 :
  url flags <> EmptyString ->
  http.Get fuel (url flags) (tr ++ [banner flags]) = Returns (None, err) tr1 ->
  main flags fuel tr = Panics nil_dereference tr1.
Proof.
  intros Hurl Hget. unfold main.
  apply String.eqb_neq in Hurl. rewrite Hurl.
  unfold bind at 1. simpl. unfold bind at 1. fold (banner flags).
  rewrite Hget. reflexivity.
Qed.
End LoopFacts.

(** ** The properties of the specification *)

Section Claims.
Context {env : Env}.
Variable flags : Flags.
Variable fuel : nat.

(** C7. An item whose publish date does not parse under the layout
    [Mon, 2 Jan 2006 15:04:05 +0000] ends in the error branch: the only
    effect is the report of the parse error; no request is sent, no file is
    written, and the loop goes on with the next item. *)
Theorem C7_unparsable_date_is_reported_and_skipped
    (item : Item) (rest : list Item) (tr : Trace) (e : error) :
  parsed item = inr e ->
  let evs := [Printf "Err parsing time: %s %s\n"
                [AStr (Title item); AErr (Some e)]] in
  main_body flags fuel item tr = Returns tt (tr ++ evs)
  /\ requests evs = [] /\ writes evs = []
  /\ range (item :: rest) (main_body flags fuel) tr
     = range rest (main_body flags fuel) (tr ++ evs).
Proof.
  intros Hp evs.
  assert (Hb : main_body flags fuel item tr = Returns tt (tr ++ evs)).
  { unfold main_body. unfold parsed in Hp. now rewrite Hp. }
  repeat split; auto. now apply range_next.
Qed.

(** C5. An item whose publish date parses but whose date, formatted as
    YYYY-MM-DD from the parsed time itself, differs from the target date is
    skipped: at most the mismatch report (under verbose), no request, no
    file, and the loop goes on. *)
Theorem C5_date_mismatch_is_skipped
    (item : Item) (rest : list Item) (tr : Trace) (t : Time) :
  parsed item = inl t ->
  Time_Format t dateFormat <> targetDate flags ->
  let evs := if verbose flags
             then [Printf "Skipping, date mismatch: %s %s\n"
                     [AStr (Title item); AStr (Time_Format t dateFormat)]]
             else [] in
  main_body flags fuel item tr = Returns tt (tr ++ evs)
  /\ requests evs = [] /\ writes evs = []
  /\ range (item :: rest) (main_body flags fuel) tr
     = range rest (main_body flags fuel) (tr ++ evs).
Proof.
  intros Hp Hd evs.
  assert (Hb : main_body flags fuel item tr = Returns tt (tr ++ evs)).
  { unfold main_body. unfold parsed in Hp. rewrite Hp.
    assert (Hne : String.eqb (targetDate flags) (Time_Format t dateFormat)
                  = false) by (apply String.eqb_neq; congruence).
    rewrite Hne. simpl. subst evs.
    destruct (verbose flags); [reflexivity|].
    unfold ret. now rewrite app_nil_r. }
  subst evs. destruct (verbose flags); repeat split; auto;
    now apply range_next.
Qed.


(** C4. An item that passes the date filter and whose fetch, ordinary
    redirects followed, ends in a response of status 200 whose body reads
    as the bytes [B]: the body writes exactly one file, [<title>.<ext>] in
    the output directory, with content [B]. *)
Theorem C4_ok_response_body_is_written
    (item : Item) (tr : Trace) (t : Time)
    (resp : http.Response) (err : option error) (tr1 : Trace)
    (B : list byte) :
  parsed item = inl t ->
  targetDate flags = Time_Format t dateFormat ->
  dryRun flags = false ->
  fetch flags fuel item tr = Returns (Some resp, err) tr1 ->
  http.StatusCode resp = 200 ->
  io.ReadAll (http.Body resp) = (B, None) ->
  exists urls,
    let evs := doing item :: map Send urls
               ++ [Printf "Writing %s\n" [AStr (Title item)];
                   WriteFile (file_name flags item (fileExtension flags)) B 438;
                   Printf "Done %s\n" [AStr (Title item)]] in
    main_body flags fuel item tr = Returns tt (tr ++ evs)
    /\ writes evs = [(file_name flags item (fileExtension flags), B)].
Proof.
  intros Hp Hd Hdry Hf Hst Hrd.
  fetched_item Hp Hd Hdry Hf F urls. exists urls. cbv zeta.
  injection Hrd as <- _.
  inversion F as [r _| r loc e Hred _ _ |]; subst; [|status_clash Hred Hst].
  rewrite (main_fetched_ok _ _ _ _ Hst), item_trace, item_writes. auto.
Qed.

(** C10. As C4, but the read of the body fails after the bytes [B]: the
    read error is dropped, the file [<title>.<ext>] is written with [B],
    and the item is reported as done, not as an error. *)
Theorem C10_failed_body_read_is_ignored
    (item : Item) (tr : Trace) (t : Time)
    (resp : http.Response) (err : option error) (tr1 : Trace)
    (B : list byte) (failure : error) :
  parsed item = inl t ->
  targetDate flags = Time_Format t dateFormat ->
  dryRun flags = false ->
  fetch flags fuel item tr = Returns (Some resp, err) tr1 ->
  http.StatusCode resp = 200 ->
  io.ReadAll (http.Body resp) = (B, Some failure) ->
  exists urls,
    let evs := doing item :: map Send urls
               ++ [Printf "Writing %s\n" [AStr (Title item)];
                   WriteFile (file_name flags item (fileExtension flags)) B 438;
                   Printf "Done %s\n" [AStr (Title item)]] in
    main_body flags fuel item tr = Returns tt (tr ++ evs)
    /\ writes evs = [(file_name flags item (fileExtension flags), B)]
    /\ fetch_errors evs = [].
Proof.
  intros Hp Hd Hdry Hf Hst Hrd.
  fetched_item Hp Hd Hdry Hf F urls. exists urls. cbv zeta.
  injection Hrd as <- _.
  inversion F as [r _| r loc e Hred _ _ |]; subst; [|status_clash Hred Hst].
  rewrite (main_fetched_ok _ _ _ _ Hst), item_trace, item_writes,
    item_fetch_errors.
  auto.
Qed.

(** C1, as the code has it. An item that passes the date filter and whose
    fetch ends in a response of status 302 whose [Location] resolves to a
    URL of scheme redir-ext: the body writes exactly one file,
    [<title>.<redir-ext>] in the output directory, holding the text of that
    URL, and no content file. *)
Theorem C1_found_redirect_is_captured
    (item : Item) (tr : Trace) (t : Time)
    (resp : http.Response) (err : option error) (tr1 : Trace) (loc : URL) :
  parsed item = inl t ->
  targetDate flags = Time_Format t dateFormat ->
  dryRun flags = false ->
  fetch flags fuel item tr = Returns (Some resp, err) tr1 ->
  http.StatusCode resp = 302 ->
  http.Location resp = inl loc ->
  Scheme loc = redirectFileExtension flags ->
  exists urls,
    let name := file_name flags item (redirectFileExtension flags) in
    let text := list_byte_of_string (URL_String loc) in
    let evs := doing item :: map Send urls
               ++ [Printf "Got 302. Writing %s\n"
                     [AStringer (Some (URL_String loc))];
                   WriteFile name text 438] in
    main_body flags fuel item tr = Returns tt (tr ++ evs)
    /\ writes evs = [(name, text)].
Proof.
  intros Hp Hd Hdry Hf Hst Hloc Hsch.
  fetched_item Hp Hd Hdry Hf F urls. exists urls. cbv zeta.
  inversion F as [r Hfinal| r loc' e Hred _ _ |]; subst.
  - destruct Hfinal as [Hno|Hno]; [status_clash Hno Hst|].
    unfold http.Location in Hloc. rewrite Hno in Hloc. discriminate.
  - rewrite (main_fetched_capture _ _ _ _ _ _ Hst Hloc), item_trace, item_writes.
    auto.
Qed.

(** C3. The capture file is written only under the condition of line 104
    (the fetch returned an error together with a response of status 302).
    When that condition fails, the body returns, the loop goes on, and any
    file it wrote is the content file of an error-free answer of status
    200; when moreover the fetch returned an error (as for a chain the
    policy stopped on a 301, 303, 307 or 308), nothing is written and the
    error is reported on the generic path. *)
Theorem C3_capture_only_on_error_with_302
    (item : Item) (rest : list Item) (tr : Trace) (t : Time)
    (itemRes : option http.Response) (err : option error) (tr1 : Trace) :
  parsed item = inl t ->
  targetDate flags = Time_Format t dateFormat ->
  dryRun flags = false ->
  fetch flags fuel item tr = Returns (itemRes, err) tr1 ->
  redirect_found itemRes err = false ->
  exists evs,
    main_body flags fuel item tr = Returns tt (tr ++ evs)
    /\ range (item :: rest) (main_body flags fuel) tr
       = range rest (main_body flags fuel) (tr ++ evs)
    /\ (forall name data,
           In (name, data) (writes evs) ->
           err = None
           /\ exists resp, itemRes = Some resp
                           /\ http.StatusCode resp = 200
                           /\ name = file_name flags item (fileExtension flags)
                           /\ data = io.data (http.Body resp))
    /\ (forall e, err = Some e ->
                  writes evs = []
                  /\ fetch_errors evs = [[AStr (Title item); AErr (Some e)]]).
Proof.
  intros Hp Hd Hdry Hf Hcond.
  pose proof (main_body_fetch flags fuel item tr t Hp Hd Hdry) as Hb.
  rewrite Hf in Hb.
  destruct (fetch_returns flags fuel item tr _ _ _ Hf) as [F [urls ->]].
  inversion F as [r _| r loc e _ _ _ | e]; subst.
  - (* an answer without error *)
    destruct (Z.eq_dec (http.StatusCode r) 200) as [Hst|Hst].
    + rewrite (main_fetched_ok _ _ _ _ Hst), item_trace in Hb.
      eexists. split; [exact Hb|]. split; [now apply range_next|].
      rewrite item_writes. split; [|discriminate].
      intros name data [Hin|[]]. injection Hin as <- <-. eauto 6.
    + rewrite (main_fetched_other _ _ _ _ Hst), item_trace in Hb.
      eexists. split; [exact Hb|]. split; [now apply range_next|].
      rewrite item_writes. split; [intros name data []|discriminate].
  - (* a redirect stopped by the policy, its status not 302 *)
    rewrite (main_fetched_error _ _ _ _ _ Hcond), item_trace in Hb.
    eexists. split; [exact Hb|]. split; [now apply range_next|].
    rewrite item_writes, item_fetch_errors. split; [intros name data []|].
    intros e' He. injection He as <-. auto.
  - (* an error alone *)
    rewrite (main_fetched_error _ _ _ _ _ Hcond), item_trace in Hb.
    eexists. split; [exact Hb|]. split; [now apply range_next|].
    rewrite item_writes, item_fetch_errors. split; [intros name data []|].
    intros e' He. injection He as <-. auto.
Qed.

(** C8, as the code has it. An item whose fetch ends outside the capture
    condition, and not in an error-free answer of status 200, gets no file;
    the body returns and the loop goes on with the next item. An error is
    reported as [Error fetching]; a status other than 200 that came without
    error is not reported: the item is logged as done. *)
Theorem C8_failed_fetch_writes_nothing_and_continues
    (item : Item) (rest : list Item) (tr : Trace) (t : Time)
    (itemRes : option http.Response) (err : option error) (tr1 : Trace) :
  parsed item = inl t ->
  targetDate flags = Time_Format t dateFormat ->
  dryRun flags = false ->
  fetch flags fuel item tr = Returns (itemRes, err) tr1 ->
  redirect_found itemRes err = false ->
  (forall resp, itemRes = Some resp -> err = None ->
                http.StatusCode resp <> 200) ->
  exists urls,
    let report := match err with
                  | Some _ => Printf "Error fetching: %s err: %s\n"
                                [AStr (Title item); AErr err]
                  | None => Printf "Done %s\n" [AStr (Title item)]
                  end in
    let evs := doing item :: map Send urls ++ [report] in
    main_body flags fuel item tr = Returns tt (tr ++ evs)
    /\ writes evs = []
    /\ range (item :: rest) (main_body flags fuel) tr
       = range rest (main_body flags fuel) (tr ++ evs).
Proof.
  intros Hp Hd Hdry Hf Hcond Hnot.
  pose proof (main_body_fetch flags fuel item tr t Hp Hd Hdry) as Hb.
  rewrite Hf in Hb.
  destruct (fetch_returns flags fuel item tr _ _ _ Hf) as [F [urls ->]].
  exists urls. cbv zeta. rewrite item_writes.
  inversion F as [r _| r loc e _ _ _ | e]; subst.
  - rewrite (main_fetched_other _ _ _ _ (Hnot r eq_refl eq_refl)), item_trace
      in Hb.
    split; [exact Hb|]. split; [reflexivity|now apply range_next].
  - rewrite (main_fetched_error _ _ _ _ _ Hcond), item_trace in Hb.
    split; [exact Hb|]. split; [reflexivity|now apply range_next].
  - rewrite (main_fetched_error _ _ _ _ _ Hcond), item_trace in Hb.
    split; [exact Hb|]. split; [reflexivity|now apply range_next].
Qed.

(** C9. When the decoder returns an error for the feed body, the error is
    dropped: the run goes on over the items the decoder left in the
    channel, exactly as [main_body] processes them, never panics, and with
    no item it returns after the two closing reports. *)
Theorem C9_decode_error_is_swallowed
    (tr : Trace) (res : http.Response) (err : option error) (tr1 : Trace)
    (r : Response) (e : error) :
  url flags <> EmptyString ->
  http.Get fuel (url flags) (tr ++ [banner flags]) = Returns (Some res, err) tr1 ->
  http.StatusCode res = 200 ->
  xml_Unmarshal (io.data (http.Body res)) Response_zero = (r, Some e) ->
  let found := Printf "Found %d items, starting download...\n"
                 [AInt (Z.of_nat (length (Items (Ch r))))] in
  main flags fuel tr
  = (range (Items (Ch r)) (main_body flags fuel) ;; fmt.Println "Done all!")
      (tr1 ++ [found])
  /\ (forall msg tr', main flags fuel tr <> Panics msg tr')
  /\ (Items (Ch r) = [] ->
      main flags fuel tr = Returns tt (tr1 ++ [found; Println "Done all!"])).
Proof.
  intros Hurl Hget Hst Hxml found.
  pose proof (main_decoded flags fuel tr res err tr1 r (Some e)
                Hurl Hget Hst Hxml) as Hmain.
  fold found in Hmain. split; [exact Hmain|]. split.
  - intros msg tr'. rewrite Hmain. unfold bind.
    destruct (range (Items (Ch r)) (main_body flags fuel) (tr1 ++ [found]))
      as [[] tr2|m tr2|] eqn:Hr; try discriminate.
    now apply range_no_panic in Hr.
  - intros Hnil. rewrite Hmain. subst found. rewrite Hnil. simpl.
    unfold bind, ret, fmt.Println, emit. now rewrite <- app_assoc.
Qed.
End Claims.

(** ** The properties on the scenarios *)

(** C2, at a feed whose host cannot be reached: [http.Get] returns no
    response, and the test of [res.StatusCode] on line 52 dereferences nil;
    the run panics right after the request instead of reporting the error. *)
Theorem C2_unreachable_feed_panics :
  main (env := Double.world Scenario.decoded Scenario.net_down)
       Scenario.flags 10 []
  = Panics nil_dereference
           [banner Scenario.flags; Send "http://feed.example/rss?q=x"].
Proof. vm_compute. reflexivity. Qed.

(** The first example of the specification: the item of the target date is
    downloaded to [<title>.file]. *)
Example example_download :
  main (env := Double.world Scenario.single Scenario.net_plain)
       Scenario.flags 10 []
  = Returns tt
      [banner Scenario.flags; Send "http://feed.example/rss?q=x";
       Printf "Found %d items, starting download...\n" [AInt 1];
       doing Scenario.ep1; Send "http://files.example/get/1";
       Printf "Writing %s\n" [AStr "ep1"];
       WriteFile "out/ep1.file" (list_byte_of_string "ABC") 438;
       Printf "Done %s\n" [AStr "ep1"];
       Println "Done all!"].
Proof. vm_compute. reflexivity. Qed.

(** The second example: with the next day as target date nothing is
    written. *)
Example example_date_mismatch :
  main (env := Double.world Scenario.single Scenario.net_plain)
       Scenario.next_day 10 []
  = Returns tt
      [banner Scenario.next_day; Send "http://feed.example/rss?q=x";
       Printf "Found %d items, starting download...\n" [AInt 1];
       Println "Done all!"].
Proof. vm_compute. reflexivity. Qed.

(** C1 as stated fails on a redirect of status 301: the link answers 301
    with a [Location] of the sentinel scheme, the policy stops the chain,
    and the body reports an error and writes no file at all. *)
Lemma C1_counterexample_status_301 :
  exists resp err tr1 loc,
    fetch (env := Double.world Scenario.decoded (Scenario.net_redirect 301))
          Scenario.flags 5 Scenario.ep1 []
    = Returns (Some resp, err) tr1
    /\ http.StatusCode resp = 301
    /\ http.shouldRedirect (http.StatusCode resp) = true
    /\ http.Location resp = inl loc
    /\ Scheme loc = redirectFileExtension Scenario.flags
    /\ URL_String loc = Scenario.magnet
    /\ exists evs,
        main_body (env := Double.world Scenario.decoded (Scenario.net_redirect 301))
                  Scenario.flags 5 Scenario.ep1 []
        = Returns tt evs
        /\ evs = [doing Scenario.ep1; Send "http://files.example/get/1";
                  Printf "Error fetching: %s err: %s\n"
                    [AStr "ep1";
                     AErr (Some (url_Error "Get" Scenario.magnet
                                   (errors.New "caught redirect")))]]
        /\ writes evs = [].
Proof.
  do 4 eexists. repeat split; try reflexivity.
  eexists. repeat split; reflexivity.
Qed.

(** C8 as stated fails on a status 404: the fetch ends without error in a
    response of status 404, no file is written and the loop goes on, but
    nothing reports the status; the item is logged as done. *)
Lemma C8_counterexample_status_404 :
  exists resp tr1,
    fetch (env := Double.world Scenario.decoded Scenario.net_missing)
          Scenario.flags 5 Scenario.ep1 []
    = Returns (Some resp, None) tr1
    /\ http.StatusCode resp = 404
    /\ exists evs,
        main_body (env := Double.world Scenario.decoded Scenario.net_missing)
                  Scenario.flags 5 Scenario.ep1 []
        = Returns tt evs
        /\ evs = [doing Scenario.ep1; Send "http://files.example/get/1";
                  Printf "Done %s\n" [AStr "ep1"]]
        /\ fetch_errors evs = [].
Proof.
  do 2 eexists. repeat split; try reflexivity.
  eexists. repeat split; reflexivity.
Qed.

(** C7 on the item [ep3], whose date is in another format. *)
Lemma C7_witness :
  main_body (env := Double.world Scenario.decoded Scenario.net_ok)
            Scenario.flags 5 Scenario.ep3 []
  = Returns tt
      [Printf "Err parsing time: %s %s\n"
         [AStr "ep3";
          AErr (Some (errorString
                        "parsing time 2024-01-11T21:00:00Z: cannot parse"))]].
Proof.
  refine (proj1 (C7_unparsable_date_is_reported_and_skipped
                   (env := Double.world Scenario.decoded Scenario.net_ok)
                   Scenario.flags 5 Scenario.ep3 [] [] _ _)).
  reflexivity.
Defined.

(** C5 on the item [ep2], published the day before the target date. *)
Lemma C5_witness :
  main_body (env := Double.world Scenario.decoded Scenario.net_ok)
            Scenario.flags 5 Scenario.ep2 []
  = Returns tt [].
Proof.
  refine (proj1 (C5_date_mismatch_is_skipped
                   (env := Double.world Scenario.decoded Scenario.net_ok)
                   Scenario.flags 5 Scenario.ep2 [] []
                   {| Double.year := 2024; Double.month := 1; Double.day := 10;
                      Double.hour := 9; Double.minute := 30;
                      Double.second := 0 |} _ _)).
  - reflexivity.
  - vm_compute. discriminate.
Defined.


(** C4 on the item [ep1]: one ordinary redirect, then 200 with body [ABC]. *)
Lemma C4_witness :
  exists urls,
    let evs := doing Scenario.ep1 :: map Send urls
               ++ [Printf "Writing %s\n" [AStr "ep1"];
                   WriteFile "out/ep1.file" (list_byte_of_string "ABC") 438;
                   Printf "Done %s\n" [AStr "ep1"]] in
    main_body (env := Double.world Scenario.decoded Scenario.net_ok)
              Scenario.flags 5 Scenario.ep1 []
    = Returns tt ([] ++ evs)
    /\ writes evs = [("out/ep1.file", list_byte_of_string "ABC")].
Proof.
  refine (C4_ok_response_body_is_written
            (env := Double.world Scenario.decoded Scenario.net_ok)
            Scenario.flags 5 Scenario.ep1 [] _ _ _ _ _ _ _ _ _ _ _);
    refine eq_refl.
Defined.

(** C10 on the item [ep1]: status 200, the body breaks off after [AB]. *)
Lemma C10_witness :
  exists urls,
    let evs := doing Scenario.ep1 :: map Send urls
               ++ [Printf "Writing %s\n" [AStr "ep1"];
                   WriteFile "out/ep1.file" (list_byte_of_string "AB") 438;
                   Printf "Done %s\n" [AStr "ep1"]] in
    main_body (env := Double.world Scenario.decoded Scenario.net_short)
              Scenario.flags 5 Scenario.ep1 []
    = Returns tt ([] ++ evs)
    /\ writes evs = [("out/ep1.file", list_byte_of_string "AB")]
    /\ fetch_errors evs = [].
Proof.
  refine (C10_failed_body_read_is_ignored
            (env := Double.world Scenario.decoded Scenario.net_short)
            Scenario.flags 5 Scenario.ep1 [] _ _ _ _ _ _ _ _ _ _ _ _);
    refine eq_refl.
Defined.

(** C1 on the item [ep1]: the link answers 302 with a [Location] of the
    sentinel scheme. *)
Lemma C1_witness :
  exists urls,
    let name := "out/ep1.magnet" in
    let text := list_byte_of_string Scenario.magnet in
    let evs := doing Scenario.ep1 :: map Send urls
               ++ [Printf "Got 302. Writing %s\n"
                     [AStringer (Some Scenario.magnet)];
                   WriteFile name text 438] in
    main_body (env := Double.world Scenario.decoded (Scenario.net_redirect 302))
              Scenario.flags 5 Scenario.ep1 []
    = Returns tt ([] ++ evs)
    /\ writes evs = [(name, text)].
Proof.
  refine (C1_found_redirect_is_captured
            (env := Double.world Scenario.decoded (Scenario.net_redirect 302))
            Scenario.flags 5 Scenario.ep1 [] _ _ _ _
            {| Double.scheme := "magnet"; Double.rest := "?xt=urn:btih:abc" |}
            _ _ _ _ _ _ _);
    refine eq_refl.
Defined.

(** C3 on the item [ep1]: the link answers 308 with a [Location] of the
    sentinel scheme; the policy stops the chain and nothing is written. *)
Lemma C3_witness :
  exists evs,
    main_body (env := Double.world Scenario.decoded (Scenario.net_redirect 308))
              Scenario.flags 5 Scenario.ep1 []
    = Returns tt ([] ++ evs)
    /\ writes evs = []
    /\ fetch_errors evs
       = [[AStr "ep1";
           AErr (Some (url_Error "Get" Scenario.magnet
                         (errors.New "caught redirect")))]].
Proof.
  destruct (C3_capture_only_on_error_with_302
              (env := Double.world Scenario.decoded (Scenario.net_redirect 308))
              Scenario.flags 5 Scenario.ep1 [] [] _ _ _ _
              eq_refl eq_refl eq_refl eq_refl eq_refl)
    as [evs [Hrun [_ [_ Herr]]]].
  exists evs. split; [exact Hrun|]. exact (Herr _ eq_refl).
Defined.

(** C8 on the item [ep1]: the link answers 404. *)
Lemma C8_witness :
  exists urls,
    let evs := doing Scenario.ep1 :: map Send urls
               ++ [Printf "Done %s\n" [AStr "ep1"]] in
    main_body (env := Double.world Scenario.decoded Scenario.net_missing)
              Scenario.flags 5 Scenario.ep1 []
    = Returns tt ([] ++ evs)
    /\ writes evs = []
    /\ range [Scenario.ep1; Scenario.ep2]
             (main_body (env := Double.world Scenario.decoded Scenario.net_missing)
                        Scenario.flags 5) []
       = range [Scenario.ep2]
               (main_body (env := Double.world Scenario.decoded Scenario.net_missing)
                          Scenario.flags 5) ([] ++ evs).
Proof.
  refine (C8_failed_fetch_writes_nothing_and_continues
            (env := Double.world Scenario.decoded Scenario.net_missing)
            Scenario.flags 5 Scenario.ep1 [Scenario.ep2] [] _ _ _ _
            eq_refl eq_refl eq_refl eq_refl eq_refl _).
  intros resp Hresp _. injection Hresp as <-. discriminate.
Defined.

(** C9 on a feed whose decoding stops at a syntax error after the first
    item: the run downloads that item and ends normally. *)
Lemma C9_witness :
  main (env := Double.world Scenario.broken Scenario.net_ok) Scenario.flags 5 []
  = (range [Scenario.ep1]
           (main_body (env := Double.world Scenario.broken Scenario.net_ok)
                      Scenario.flags 5) ;;
     fmt.Println "Done all!")%go
      [banner Scenario.flags; Send "http://feed.example/rss?q=x";
       Printf "Found %d items, starting download...\n" [AInt 1]].
Proof.
  refine (proj1 (C9_decode_error_is_swallowed
                   (env := Double.world Scenario.broken Scenario.net_ok)
                   Scenario.flags 5 [] _ _ _ _ _ _ eq_refl eq_refl eq_refl)).
  discriminate.
Defined.

(** ** More on the two clients *)

Section MoreClientFacts.
Context {env : Env}.
Variable flags : Flags.

(** The default client returns a response or an error, and only sends. *)
Lemma Default_do_sends (fuel : nat) :
  forall req reqs tr,
    only_sends (fun r => fst r <> None \/ snd r <> None) tr
               (http.Client_do http.DefaultClient fuel req reqs tr).
Proof.
  induction fuel as [|fuel IH]; intros req reqs tr; simpl; [exact I|].
  unfold bind at 1, http.send.
  set (u := URL_String (http.Req_URL req)).
  destruct (RoundTrip tr (http.Req_URL req)) as [w|e]; simpl.
  2:{ unfold ret; simpl. split; [now right|]. now exists [u]. }
  destruct (http.shouldRedirect (wire_status w)); simpl.
  2:{ unfold ret; simpl. split; [now left|]. now exists [u]. }
  destruct (String.eqb (wire_location w) EmptyString); simpl.
  { unfold ret; simpl. split; [now left|]. now exists [u]. }
  destruct (URL_Parse (http.Req_URL req) (wire_location w)) as [l|e].
  2:{ unfold ret; simpl. split; [now right|]. now exists [u]. }
  unfold bind, http.checkRedirect, http.defaultCheckRedirect; simpl.
  destruct (10 <=? Z.of_nat (length (reqs ++ [req]))); unfold ret; simpl.
  - split; [now left|]. now exists [u].
  - match goal with
    | |- only_sends _ _ (http.Client_do _ _ ?rq ?rs ?t) =>
        specialize (IH rq rs t);
        destruct (http.Client_do http.DefaultClient fuel rq rs t)
          as [[res e] tr'| |]; simpl in *; auto
    end.
    destruct IH as [Hf [urls ->]]. split; [exact Hf|].
    exists (u :: urls). now rewrite <- app_assoc.
Qed.

Lemma Get_sends (fuel : nat) (link : string) (tr : Trace) :
  only_sends (fun r => fst r <> None \/ snd r <> None) tr
             (http.Get fuel link tr).
Proof.
  unfold http.Get, http.Client_Get. destruct (url_Parse link) as [u|e].
  - apply Default_do_sends.
  - unfold ret; simpl. split; [now right|]. exists []. now rewrite app_nil_r.
Qed.

(** The requests of the custom client: the first URL, then redirect targets
    whose scheme is not the sentinel. *)
Lemma Client_do_targets (fuel : nat) :
  forall req reqs tr r tr',
    http.Client_do (client flags) fuel req reqs tr = Returns r tr' ->
    exists us,
      tr' = tr ++ map Send (map URL_String (http.Req_URL req :: us))
      /\ Forall (fun u => Scheme u <> redirectFileExtension flags) us.
Proof.
  induction fuel as [|fuel IH]; intros req reqs tr r tr'; simpl;
    [discriminate|].
  unfold bind at 1, http.send.
  destruct (RoundTrip tr (http.Req_URL req)) as [w|e]; simpl.
  2:{ unfold ret. intros [= <- <-]. now exists []. }
  destruct (http.shouldRedirect (wire_status w)); simpl.
  2:{ unfold ret. intros [= <- <-]. now exists []. }
  destruct (String.eqb (wire_location w) EmptyString) eqn:Hl; simpl.
  { unfold ret. intros [= <- <-]. now exists []. }
  destruct (URL_Parse (http.Req_URL req) (wire_location w)) as [l|e] eqn:Hp.
  2:{ unfold ret. intros [= <- <-]. now exists []. }
  unfold bind, http.checkRedirect; simpl.
  unfold main_CheckRedirect, http.Location; simpl.
  rewrite Hl, Hp; simpl.
  destruct (String.eqb (Scheme l) (redirectFileExtension flags)) eqn:Hc;
    unfold ret; simpl.
  - intros [= <- <-]. now exists [].
  - intros H. apply IH in H. destruct H as [us [-> Hus]]. simpl.
    exists (l :: us). split.
    + now rewrite <- app_assoc.
    + constructor; [now apply String.eqb_neq|exact Hus].
Qed.

(** On a network that always redirects past the policy, the custom client
    uses up any fuel. *)
Lemma Client_do_follows_forever (fuel : nat) :
  always_redirects flags ->
  forall req reqs tr,
    http.Client_do (client flags) fuel req reqs tr = OutOfFuel.
Proof.
  intros Hnet. induction fuel as [|fuel IH]; intros req reqs tr; simpl;
    [reflexivity|].
  unfold bind at 1, http.send.
  destruct (Hnet tr (http.Req_URL req)) as [w [u' [Hw [Hs [Hl [Hp Hc]]]]]].
  rewrite Hw. simpl. rewrite Hs. simpl.
  apply String.eqb_neq in Hl. rewrite Hl, Hp.
  unfold bind, http.checkRedirect; simpl.
  unfold main_CheckRedirect, http.Location; simpl.
  rewrite Hl, Hp; simpl.
  apply String.eqb_neq in Hc. rewrite Hc. unfold ret; simpl. apply IH.
Qed.


(** One redirect hop: the answer is a redirect and the policy lets it
    through. *)
Lemma Client_do_hop (c : http.Client) (fuel : nat) req reqs tr w target :
  RoundTrip tr (http.Req_URL req) = inl w ->
  http.shouldRedirect (wire_status w) = true ->
  wire_location w <> EmptyString ->
  URL_Parse (http.Req_URL req) (wire_location w) = inl target ->
  let resp := {| http.StatusCode := wire_status w;
                 http.Header_Location := wire_location w;
                 http.Body := wire_body w;
                 http.Request_URL := http.Req_URL req |} in
  let next := {| http.Req_URL := target; http.Req_Response := Some resp |} in
  let tr1 := tr ++ [Send (URL_String (http.Req_URL req))] in
  http.checkRedirect c next (reqs ++ [req]) tr1 = Returns None tr1 ->
  http.Client_do c (S fuel) req reqs tr
  = http.Client_do c fuel next (reqs ++ [req]) tr1.
Proof.
  intros Hw Hs Hl Hp resp next tr1 Hpol. simpl.
  unfold bind at 1, http.send. rewrite Hw. simpl. rewrite Hs. simpl.
  apply String.eqb_neq in Hl. rewrite Hl, Hp.
  unfold bind at 1. fold resp. fold next. fold tr1. now rewrite Hpol.
Qed.

Lemma Client_do_refused (c : http.Client) (fuel : nat) req reqs tr e :
  RoundTrip tr (http.Req_URL req) = inr e ->
  http.Client_do c (S fuel) req reqs tr
  = Returns (None, Some (url_Error "Get" (URL_String (http.Req_URL req)) e))
            (tr ++ [Send (URL_String (http.Req_URL req))]).
Proof.
  intros Hw. simpl. unfold bind, http.send. now rewrite Hw.
Qed.
End MoreClientFacts.

(** ** More on the loop and the run *)

Section MoreLoopFacts.
Context {env : Env}.
Variable flags : Flags.
Variable fuel : nat.

(** What one item adds to the trace: no file, or one file of the item. *)
Lemma main_body_writes (item : Item) (tr : Trace) :
  match main_body flags fuel item tr with
  | Returns _ tr' =>
      exists evs, tr' = tr ++ evs
                  /\ (writes evs = []
                      \/ exists w, writes evs = [w] /\ item_file flags item w)
  | Panics _ _ => False
  | OutOfFuel => True
  end.
Proof.
  destruct (parsed item) as [t|e] eqn:Hp.
  2:{ unfold main_body. unfold parsed in Hp. rewrite Hp. simpl.
      eexists. split; [reflexivity|now left]. }
  destruct (String.eqb (targetDate flags) (Time_Format t dateFormat)) eqn:Hd.
  2:{ unfold main_body. unfold parsed in Hp. rewrite Hp, Hd. simpl.
      destruct (verbose flags); simpl.
      - eexists. split; [reflexivity|now left].
      - exists []. rewrite app_nil_r. split; [reflexivity|now left]. }
  destruct (dryRun flags) eqn:Hdry.
  { unfold main_body. unfold parsed in Hp. rewrite Hp, Hd, Hdry. simpl.
    eexists. split; [reflexivity|now left]. }
  apply String.eqb_eq in Hd.
  rewrite (main_body_fetch flags fuel item tr t Hp Hd Hdry).
  destruct (fetch flags fuel item tr) as [[itemRes err] tr1|m tr1|] eqn:Hf;
    [|now apply fetch_no_panic in Hf|exact I].
  destruct (fetch_returns flags fuel item tr _ _ _ Hf) as [F [urls ->]].
  inversion F as [r _| r loc e _ Hloc _ | e]; subst.
  - destruct (Z.eq_dec (http.StatusCode r) 200) as [Hst|Hst].
    + rewrite (main_fetched_ok _ _ _ _ Hst), item_trace.
      eexists. split; [reflexivity|]. rewrite item_writes. right.
      eexists. split; [reflexivity|]. now left.
    + rewrite (main_fetched_other _ _ _ _ Hst), item_trace.
      eexists. split; [reflexivity|]. rewrite item_writes. now left.
  - destruct (Z.eq_dec (http.StatusCode r) 302) as [Hst|Hst].
    + rewrite (main_fetched_capture _ _ _ _ _ _ Hst Hloc), item_trace.
      eexists. split; [reflexivity|]. rewrite item_writes. right.
      eexists. split; [reflexivity|]. now right.
    + rewrite main_fetched_error, item_trace.
      * eexists. split; [reflexivity|]. rewrite item_writes. now left.
      * simpl. now apply Z.eqb_neq.
  - rewrite main_fetched_error, item_trace by reflexivity.
    eexists. split; [reflexivity|]. rewrite item_writes. now left.
Qed.

(** Under dry-run the loop returns without a write. *)
Lemma range_dry (items : list Item) :
  dryRun flags = true ->
  forall tr, exists evs,
    range items (main_body flags fuel) tr = Returns tt (tr ++ evs)
    /\ writes evs = [].
Proof.
  intros Hdry. induction items as [|item items IH]; intros tr.
  - exists []. simpl. unfold ret. now rewrite app_nil_r.
  - destruct (main_body_dry flags fuel item tr Hdry) as [e1 [H1 [_ W1]]].
    destruct (IH (tr ++ e1)) as [e2 [H2 W2]].
    exists (e1 ++ e2). rewrite (range_next _ _ _ _ _ H1), H2.
    now rewrite app_assoc, writes_app, W1, W2.
Qed.
End MoreLoopFacts.

(** ** Further properties of the program *)

Section Further.
Context {env : Env}.
Variable flags : Flags.
Variable fuel : nat.

(** X1. The custom client never follows a redirect into the sentinel
    scheme: of the requests a [Get] sends, the first goes to the link itself
    and every later one to a URL whose scheme is not redir-ext. *)
Theorem X1_redirect_targets_are_never_sentinel
    (link : string) (tr : Trace)
    (r : option http.Response * option error) (tr' : Trace) :
  http.Client_Get (client flags) fuel link tr = Returns r tr' ->
  exists us,
    tr' = tr ++ map Send (map URL_String us)
    /\ Forall (fun u => Scheme u <> redirectFileExtension flags) (tl us)
    /\ match us with
       | [] => exists e, url_Parse link = inr e
       | u :: _ => url_Parse link = inl u
       end.
Proof.
  unfold http.Client_Get. destruct (url_Parse link) as [u|e] eqn:Hu.
  - intros H. apply Client_do_targets in H. destruct H as [us [-> Hus]].
    exists (u :: us). simpl. auto.
  - unfold ret. intros [= <- <-]. exists []. simpl. rewrite app_nil_r.
    repeat split; eauto.
Qed.

(** X2. The custom policy has no limit on the number of redirects: on a
    network that answers every request with a redirect outside the sentinel
    scheme, the fetch of a selected item does not end, whatever the fuel. *)
Theorem X2_redirect_loop_never_ends
    (item : Item) (tr : Trace) (t : Time) (u : URL) :
  always_redirects flags ->
  parsed item = inl t ->
  targetDate flags = Time_Format t dateFormat ->
  dryRun flags = false ->
  url_Parse (Link item) = inl u ->
  main_body flags fuel item tr = OutOfFuel.
Proof.
  intros Hnet Hp Hd Hdry Hu.
  rewrite (main_body_fetch flags fuel item tr t Hp Hd Hdry).
  unfold fetch, http.Client_Get. rewrite Hu.
  now rewrite Client_do_follows_forever.
Qed.

(** X3. The only panic of a run is the nil dereference of line 52: a run
    panics only when the feed fetch returned an error and no response, and
    it has written nothing by then. *)
Theorem X3_only_panic_is_missing_feed_response
    (tr : Trace) (msg : string) (tr' : Trace) :
  main flags fuel tr = Panics msg tr' ->
  msg = nil_dereference
  /\ (exists e, http.Get fuel (url flags) (tr ++ [banner flags])
                = Returns (None, Some e) tr')
  /\ writes tr' = writes tr.
Proof.
  unfold main. destruct (String.eqb (url flags) EmptyString); [discriminate|].
  unfold bind at 1. simpl. unfold bind at 1. fold (banner flags).
  pose proof (Get_sends fuel (url flags) (tr ++ [banner flags])) as G.
  destruct (http.Get fuel (url flags) (tr ++ [banner flags]))
    as [[res err] tr1|m tr1|]; simpl in G; [|contradiction|discriminate].
  destruct G as [Hsome [urls ->]].
  destruct res as [res|].
  - destruct (negb (http.StatusCode res =? 200)); [discriminate|].
    simpl.
    destruct (xml_Unmarshal (io.data (http.Body res)) Response_zero)
      as [r derr].
    unfold bind. simpl.
    match goal with
    | |- match range ?items ?body ?t with _ => _ end = _ -> _ =>
        destruct (range items body t) as [[] tr2|m tr2|] eqn:Hr;
          [discriminate| |discriminate]
    end.
    now apply range_no_panic in Hr.
  - intros [= <- <-]. split; [reflexivity|]. split.
    + destruct err as [e|]; [eauto|]. destruct Hsome as [H|H]; now elim H.
    + rewrite <- app_assoc, writes_app. simpl.
      now rewrite writes_sends, app_nil_r.
Qed.

(** X4. Whatever the items, the loop writes at most one file per item, and
    every file it writes is the content file or the capture file of an item
    of the list. *)
Theorem X4_loop_writes_only_item_files (items : list Item) :
  forall (tr tr' : Trace),
    range items (main_body flags fuel) tr = Returns tt tr' ->
    exists evs,
      tr' = tr ++ evs
      /\ Forall (fun w => exists item, In item items /\ item_file flags item w)
                (writes evs)
      /\ (length (writes evs) <= length items)%nat.
Proof.
  induction items as [|item items IH]; intros tr tr'; simpl.
  - unfold ret. intros [= <-]. exists []. rewrite app_nil_r. simpl. auto.
  - unfold bind. pose proof (main_body_writes flags fuel item tr) as Hb.
    destruct (main_body flags fuel item tr) as [[] tr1|m tr1|];
      [|contradiction|discriminate].
    destruct Hb as [e1 [-> Hw]]. intros Hr.
    destruct (IH _ _ Hr) as [e2 [-> [Hall Hlen]]].
    exists (e1 ++ e2). rewrite app_assoc, writes_app, length_app.
    split; [reflexivity|]. split.
    + apply Forall_app. split.
      * destruct Hw as [->|[w [-> Hw]]]; constructor; [|constructor].
        exists item. auto.
      * eapply Forall_impl; [|exact Hall].
        intros w [it [Hin Hit]]. exists it. auto.
    + destruct Hw as [->|[w [-> _]]]; simpl; lia.
Qed.

(** X5. Under dry-run a whole run writes no file, however it ends: with
    the usage error, the feed error, the panic of line 52 or normally. *)
Theorem X5_dry_run_never_writes (tr : Trace) :
  dryRun flags = true ->
  extends (fun evs => writes evs = []) tr (main flags fuel tr).
Proof.
  intros Hdry. unfold main.
  destruct (String.eqb (url flags) EmptyString).
  { simpl. eexists. split; reflexivity. }
  unfold bind at 1. simpl. unfold bind at 1. fold (banner flags).
  pose proof (Get_sends fuel (url flags) (tr ++ [banner flags])) as G.
  destruct (http.Get fuel (url flags) (tr ++ [banner flags]))
    as [[res err] tr1|m tr1|]; simpl in G; [|contradiction|exact I].
  destruct G as [_ [urls ->]].
  assert (Hhead : forall tail,
             writes (banner flags :: map Send urls ++ tail) = writes tail).
  { intros tail. change (banner flags :: map Send urls ++ tail)
      with ([banner flags] ++ map Send urls ++ tail).
    now rewrite !writes_app, writes_sends. }
  destruct res as [res|].
  2:{ simpl. exists (banner flags :: map Send urls ++ []).
      split; [now rewrite app_nil_r, <- app_assoc|]. now rewrite Hhead. }
  destruct (negb (http.StatusCode res =? 200)).
  { simpl. eexists (banner flags :: map Send urls ++ [_]).
    split; [now rewrite <- !app_assoc|]. now rewrite Hhead. }
  simpl.
  destruct (xml_Unmarshal (io.data (http.Body res)) Response_zero)
    as [r derr].
  unfold bind. simpl.
  match goal with
  | |- extends _ _ match range ?items ?body ?t with _ => _ end =>
      destruct (range_dry flags fuel items Hdry t) as [evs [-> Hw]]
  end.
  simpl. eexists (banner flags :: map Send urls ++ _ :: evs ++ [_]).
  split.
  - now rewrite <- !app_assoc.
  - rewrite Hhead. simpl. now rewrite writes_app, Hw.
Qed.
End Further.

Section FurtherAnswers.
Context {env : Env}.
Variable flags : Flags.
Variable fuel : nat.

(** The custom client on a first answer that redirects into the sentinel
    scheme: the redirect response comes back with the policy's error. *)
Lemma Client_do_caught (req : http.Request) reqs tr w loc :
  RoundTrip tr (http.Req_URL req) = inl w ->
  http.shouldRedirect (wire_status w) = true ->
  wire_location w <> EmptyString ->
  URL_Parse (http.Req_URL req) (wire_location w) = inl loc ->
  Scheme loc = redirectFileExtension flags ->
  http.Client_do (client flags) (S fuel) req reqs tr
  = Returns (Some {| http.StatusCode := wire_status w;
                     http.Header_Location := wire_location w;
                     http.Body := wire_body w;
                     http.Request_URL := http.Req_URL req |},
             Some (url_Error "Get" (wire_location w)
                     (errors.New "caught redirect")))
            (tr ++ [Send (URL_String (http.Req_URL req))]).
Proof.
  intros Hw Hs Hl Hp Hc. simpl. unfold bind at 1, http.send.
  rewrite Hw. simpl. rewrite Hs. simpl.
  apply String.eqb_neq in Hl. rewrite Hl, Hp.
  unfold bind, http.checkRedirect; simpl.
  unfold main_CheckRedirect, http.Location; simpl.
  rewrite Hl, Hp; simpl.
  apply String.eqb_eq in Hc. now rewrite Hc.
Qed.


(** X7. A selected item whose link is answered at once by a 302 into the
    sentinel scheme: exactly one request is sent (the target is never
    requested) and the capture file holds the text of the target. *)
Theorem X7_sentinel_answer_is_captured_in_one_request
    (item : Item) (tr : Trace) (t : Time) (u : URL) (w : Wire) (loc : URL) :
  parsed item = inl t ->
  targetDate flags = Time_Format t dateFormat ->
  dryRun flags = false ->
  url_Parse (Link item) = inl u ->
  RoundTrip (tr ++ [doing item]) u = inl w ->
  wire_status w = 302 ->
  wire_location w <> EmptyString ->
  URL_Parse u (wire_location w) = inl loc ->
  Scheme loc = redirectFileExtension flags ->
  main_body flags (S fuel) item tr
  = Returns tt
      (tr ++ [doing item; Send (URL_String u);
              Printf "Got 302. Writing %s\n" [AStringer (Some (URL_String loc))];
              WriteFile (file_name flags item (redirectFileExtension flags))
                        (list_byte_of_string (URL_String loc)) 438]).
Proof.
  intros Hp Hd Hdry Hu Hw Hst Hl Hloc Hsch.
  rewrite (main_body_fetch flags (S fuel) item tr t Hp Hd Hdry).
  unfold fetch, http.Client_Get. rewrite Hu.
  erewrite Client_do_caught; eauto.
  2:{ simpl. unfold http.shouldRedirect. now rewrite Hst. }
  erewrite main_fetched_capture; simpl; eauto.
  - now rewrite <- !app_assoc.
  - unfold http.Location. simpl.
    apply String.eqb_neq in Hl. now rewrite Hl.
Qed.

(** X8. A selected item whose link is not a URL: no request is sent, the
    parse error is reported, nothing is written and the loop goes on. *)
Theorem X8_bad_link_sends_nothing
    (item : Item) (rest : list Item) (tr : Trace) (t : Time) (e : error) :
  parsed item = inl t ->
  targetDate flags = Time_Format t dateFormat ->
  dryRun flags = false ->
  url_Parse (Link item) = inr e ->
  let evs := [doing item;
              Printf "Error fetching: %s err: %s\n"
                [AStr (Title item); AErr (Some e)]] in
  main_body flags fuel item tr = Returns tt (tr ++ evs)
  /\ range (item :: rest) (main_body flags fuel) tr
     = range rest (main_body flags fuel) (tr ++ evs).
Proof.
  intros Hp Hd Hdry Hu evs.
  assert (Hb : main_body flags fuel item tr = Returns tt (tr ++ evs)).
  { rewrite (main_body_fetch flags fuel item tr t Hp Hd Hdry).
    unfold fetch, http.Client_Get. rewrite Hu. unfold ret.
    rewrite main_fetched_error by reflexivity.
    now rewrite <- app_assoc. }
  split; [exact Hb|now apply range_next].
Qed.

(** X9. The earlier version, with the default client, follows a redirect
    wherever it leads: the target is requested, and when the transport
    refuses it (as it does a scheme it does not speak) the item ends in the
    error report, with nothing written. *)
Theorem X9_default_client_requests_the_target
    (item : Item) (tr : Trace) (t : Time) (u : URL) (w : Wire)
    (target : URL) (e : error) :
  parsed item = inl t ->
  targetDate flags = Time_Format t dateFormat ->
  dryRun flags = false ->
  url_Parse (Link item) = inl u ->
  RoundTrip (tr ++ [doing item]) u = inl w ->
  http.shouldRedirect (wire_status w) = true ->
  wire_location w <> EmptyString ->
  URL_Parse u (wire_location w) = inl target ->
  RoundTrip ((tr ++ [doing item]) ++ [Send (URL_String u)]) target = inr e ->
  v1.main_body flags (S (S fuel)) item tr
  = Returns tt
      (tr ++ [doing item; Send (URL_String u); Send (URL_String target);
              Printf "Error fetching: %s err: %s\n"
                [AStr (Title item);
                 AErr (Some (url_Error "Get" (URL_String target) e))]]).
Proof.
  intros Hp Hd Hdry Hu Hw Hs Hl Hloc Hrefused.
  unfold v1.main_body. unfold parsed in Hp.
  rewrite Hp, <- Hd, String.eqb_refl, Hdry. simpl.
  unfold bind at 1. simpl. unfold bind at 1.
  unfold http.Get, http.Client_Get. rewrite Hu.
  change (tr ++ [Printf "Doing %s\n" [AStr (Title item)]])
    with (tr ++ [doing item]).
  erewrite Client_do_hop; [|exact Hw|exact Hs|exact Hl|exact Hloc|reflexivity].
  erewrite Client_do_refused by exact Hrefused. simpl.
  unfold fmt.Printf, emit. now rewrite <- !app_assoc.
Qed.


End FurtherAnswers.

(** ** The further properties on the scenarios *)

(** X1 on the link that answers 200 after one ordinary redirect. *)
Lemma X1_witness :
  exists us : list (@URL Cases.ok),
    [Send "http://files.example/get/1"; Send "http://files.example/mirror/1"]
    = [] ++ map Send (map (@URL_String Cases.ok) us)
    /\ Forall (fun u => @Scheme Cases.ok u <> "magnet") (tl us)
    /\ match us with
       | [] => exists e, @url_Parse Cases.ok "http://files.example/get/1" = inr e
       | u :: _ => @url_Parse Cases.ok "http://files.example/get/1" = inl u
       end.
Proof.
  refine (X1_redirect_targets_are_never_sentinel (env := Cases.ok)
            Scenario.flags 5 "http://files.example/get/1" [] _ _ _).
  refine eq_refl.
Defined.

(** X2 on the network where every URL redirects to the same ordinary URL. *)
Lemma X2_witness :
  main_body (env := Cases.looping) Scenario.flags 1000 Scenario.ep1 []
  = OutOfFuel.
Proof.
  refine (X2_redirect_loop_never_ends (env := Cases.looping)
            Scenario.flags 1000 Scenario.ep1 [] _ Cases.link1
            _ eq_refl eq_refl eq_refl eq_refl).
  intros tr u. do 2 eexists.
  split; [refine eq_refl|]. split; [refine eq_refl|].
  split; [discriminate|]. split; [refine eq_refl|discriminate].
Defined.

(** X3 on the feed whose host cannot be reached. *)
Lemma X3_witness :
  nil_dereference = nil_dereference
  /\ (exists e,
         http.Get (env := Cases.down) 10 (url Scenario.flags)
                  ([] ++ [banner Scenario.flags])
         = Returns (None, Some e)
                   [banner Scenario.flags; Send "http://feed.example/rss?q=x"])
  /\ writes [banner Scenario.flags; Send "http://feed.example/rss?q=x"]
     = writes [].
Proof.
  refine (X3_only_panic_is_missing_feed_response (env := Cases.down)
            Scenario.flags 10 [] _ _ _).
  vm_compute. reflexivity.
Defined.

(** X4 on the three items of the feed: one is downloaded, one skipped, one
    has a date that does not parse. *)
Lemma X4_witness :
  exists evs,
    [doing Scenario.ep1; Send "http://files.example/get/1";
     Send "http://files.example/mirror/1";
     Printf "Writing %s\n" [AStr "ep1"];
     WriteFile "out/ep1.file" (list_byte_of_string "ABC") 438;
     Printf "Done %s\n" [AStr "ep1"];
     Printf "Err parsing time: %s %s\n"
       [AStr "ep3";
        AErr (Some (errorString
                      "parsing time 2024-01-11T21:00:00Z: cannot parse"))]]
    = [] ++ evs
    /\ Forall (fun w => exists item,
                   In item [Scenario.ep1; Scenario.ep2; Scenario.ep3]
                   /\ item_file (env := Cases.ok) Scenario.flags item w)
              (writes evs)
    /\ (length (writes evs) <= 3)%nat.
Proof.
  refine (X4_loop_writes_only_item_files (env := Cases.ok) Scenario.flags 5
            [Scenario.ep1; Scenario.ep2; Scenario.ep3] [] _ _).
  vm_compute. reflexivity.
Defined.

(** X5 on the feed of three items, under dry-run. *)
Lemma X5_witness :
  extends (fun evs => writes evs = []) []
          (main (env := Cases.ok) Scenario.dry 5 []).
Proof.
  refine (X5_dry_run_never_writes (env := Cases.ok) Scenario.dry 5 [] eq_refl).
Defined.


(** X7 on the link that answers 302 into the sentinel scheme. *)
Lemma X7_witness :
  main_body (env := Cases.redirecting) Scenario.flags 1 Scenario.ep1 []
  = Returns tt
      [doing Scenario.ep1; Send "http://files.example/get/1";
       Printf "Got 302. Writing %s\n" [AStringer (Some Scenario.magnet)];
       WriteFile "out/ep1.magnet" (list_byte_of_string Scenario.magnet) 438].
Proof.
  refine (X7_sentinel_answer_is_captured_in_one_request
            (env := Cases.redirecting) Scenario.flags 0 Scenario.ep1 []
            _ Cases.link1 _ Cases.magnet_url
            eq_refl eq_refl eq_refl eq_refl eq_refl eq_refl _ eq_refl eq_refl).
  discriminate.
Defined.

(** X8 on an item whose link starts with a colon. *)
Lemma X8_witness :
  main_body (env := Cases.ok) Scenario.flags 5 Cases.ep_bad_link []
  = Returns tt
      [doing Cases.ep_bad_link;
       Printf "Error fetching: %s err: %s\n"
         [AStr "ep4";
          AErr (Some (url_Error "parse" ":no-scheme"
                        (errors.New "missing protocol scheme")))]].
Proof.
  refine (proj1 (X8_bad_link_sends_nothing (env := Cases.ok)
                   Scenario.flags 5 Cases.ep_bad_link [] [] _ _
                   eq_refl eq_refl eq_refl eq_refl)).
Defined.

(** X9 on the link that answers 302 into the sentinel scheme, which the
    network does not serve. *)
Lemma X9_witness :
  v1.main_body (env := Cases.redirecting) Scenario.flags 2 Scenario.ep1 []
  = Returns tt
      [doing Scenario.ep1; Send "http://files.example/get/1";
       Send Scenario.magnet;
       Printf "Error fetching: %s err: %s\n"
         [AStr "ep1";
          AErr (Some (url_Error "Get" Scenario.magnet
                        (errors.New "dial tcp: lookup failed: no such host")))]].
Proof.
  refine (X9_default_client_requests_the_target
            (env := Cases.redirecting) Scenario.flags 0 Scenario.ep1 []
            _ Cases.link1 _ Cases.magnet_url _
            eq_refl eq_refl eq_refl eq_refl eq_refl eq_refl _ eq_refl eq_refl).
  discriminate.
Defined.



(** ** The playlist helpers *)

Section PlaylistFacts.
Variable Map_ToLower : string -> string.

Lemma list_ascii_app (a b : string) :
  list_ascii_of_string (a ++ b)
  = list_ascii_of_string a ++ list_ascii_of_string b.
Proof. induction a as [|c a IH]; simpl; [reflexivity|now rewrite IH]. Qed.

(** The scan stops at a separator: what lies before it in the path does not
    matter. *)
Lemma scan_back_separator (l1 l2 : list ascii) :
  forall suffix,
    filepath.scan_back (l1 ++ "/"%char :: l2) suffix
    = filepath.scan_back l1 suffix.
Proof.
  induction l1 as [|c l1 IH]; intros suffix; simpl; [reflexivity|].
  destruct (Ascii.eqb c "/"); [reflexivity|].
  destruct (Ascii.eqb c "."); [reflexivity|]. apply IH.
Qed.

Lemma Ext_directory (dir base : string) :
  filepath.Ext (dir ++ "/" ++ base) = filepath.Ext base.
Proof.
  unfold filepath.Ext. rewrite list_ascii_app. simpl.
  rewrite rev_app_distr. simpl. rewrite <- app_assoc. simpl.
  now rewrite scan_back_separator.
Qed.

Lemma plain_chars (s : string) :
  playlist.plain s = true ->
  Forall (fun c => Ascii.eqb c "/" = false /\ Ascii.eqb c "." = false)
         (list_ascii_of_string s).
Proof.
  induction s as [|c s IH]; simpl; intros H; constructor.
  - apply andb_prop in H. destruct H as [H _]. apply andb_prop in H.
    destruct H as [Hd Hs]. split; now apply negb_true_iff.
  - apply andb_prop in H. now apply IH.
Qed.

(** The scan runs over characters that are neither dot nor separator. *)
Lemma scan_back_plain (l rest : list ascii) :
  Forall (fun c => Ascii.eqb c "/" = false /\ Ascii.eqb c "." = false) l ->
  forall suffix,
    filepath.scan_back (l ++ rest) suffix
    = filepath.scan_back rest (rev l ++ suffix).
Proof.
  induction 1 as [|c l [Hs Hd] _ IH]; intros suffix; simpl; [reflexivity|].
  rewrite Hs, Hd, IH. now rewrite <- app_assoc.
Qed.

Lemma Ext_plain (base : string) :
  playlist.plain base = true -> filepath.Ext base = EmptyString.
Proof.
  intros H. unfold filepath.Ext.
  pose proof (scan_back_plain (rev (list_ascii_of_string base)) []
                (Forall_rev (plain_chars base H)) []) as E.
  rewrite app_nil_r in E. now rewrite E.
Qed.

Lemma Ext_suffix (stem e : string) :
  playlist.plain e = true ->
  filepath.Ext (stem ++ "." ++ e) = ("." ++ e)%string.
Proof.
  intros H. unfold filepath.Ext. rewrite list_ascii_app. simpl.
  rewrite rev_app_distr. simpl. rewrite <- app_assoc. simpl.
  rewrite (scan_back_plain _ _ (Forall_rev (plain_chars e H))). simpl.
  rewrite rev_involutive, app_nil_r. simpl.
  now rewrite string_of_list_ascii_of_string.
Qed.

(** X12. [isAudioFile] looks at the last element of the path only: the
    directories in front of it do not change the answer. *)
Theorem X12_isAudioFile_ignores_directories (dir base : string) :
  playlist.isAudioFile Map_ToLower (dir ++ "/" ++ base)
  = playlist.isAudioFile Map_ToLower base.
Proof. unfold playlist.isAudioFile. now rewrite Ext_directory. Qed.

(** X13. A file whose name has no dot is not an audio file, wherever it
    lies; in particular a dot in a directory name does not count. *)
Theorem X13_isAudioFile_needs_a_dot (dir base : string) :
  playlist.plain base = true ->
  playlist.isAudioFile Map_ToLower base = false
  /\ playlist.isAudioFile Map_ToLower (dir ++ "/" ++ base) = false.
Proof.
  intros H.
  assert (E : playlist.isAudioFile Map_ToLower base = false).
  { unfold playlist.isAudioFile. now rewrite (Ext_plain base H). }
  split; [exact E|].
  unfold playlist.isAudioFile in *. now rewrite Ext_directory.
Qed.

Lemma lower_bytes_ascii (s : string) :
  strings.all_ascii s = true ->
  strings.ToLower Map_ToLower s = strings.lower_bytes s.
Proof. unfold strings.ToLower. now intros ->. Qed.

(** X14. The extension is matched without regard to letter case: for an
    ASCII extension [e] without dot or slash, [stem.e] is an audio file
    exactly when [e] in lower case is one of the five extensions. *)
Theorem X14_isAudioFile_by_lowercase_extension (stem e : string) :
  playlist.plain e = true ->
  strings.all_ascii e = true ->
  playlist.isAudioFile Map_ToLower (stem ++ "." ++ e) = true
  <-> In (strings.lower_bytes e) ["mp3"; "flac"; "wav"; "ogg"; "m4a"].
Proof.
  intros Hplain Hascii. unfold playlist.isAudioFile.
  rewrite (Ext_suffix stem e Hplain).
  rewrite lower_bytes_ascii by (simpl; exact Hascii).
  change (strings.lower_bytes ("." ++ e))
    with (String "." (strings.lower_bytes e)).
  set (x := strings.lower_bytes e). simpl In. split.
  - intros H.
    destruct (String.eqb_spec (String "." x) ".mp3") as [E|_];
      [injection E; auto|].
    destruct (String.eqb_spec (String "." x) ".flac") as [E|_];
      [injection E; auto|].
    destruct (String.eqb_spec (String "." x) ".wav") as [E|_];
      [injection E; auto|].
    destruct (String.eqb_spec (String "." x) ".ogg") as [E|_];
      [injection E; auto 6|].
    destruct (String.eqb_spec (String "." x) ".m4a") as [E|_];
      [injection E; auto 7|].
    discriminate H.
  - intros [<-|[<-|[<-|[<-|[<-|[]]]]]]; reflexivity.
Qed.
End PlaylistFacts.

Section WriteFacts.
Variable create : string -> option error.
Variable write : list playlist.Op -> string -> option error.









End WriteFacts.

(** ** The playlist helpers on examples *)

(** X13 on a file without extension in a directory named like a track. *)
Lemma X13_witness :
  playlist.isAudioFile PlaylistCases.no_unicode "README" = false
  /\ playlist.isAudioFile PlaylistCases.no_unicode
       ("album.mp3" ++ "/" ++ "README") = false.
Proof.
  refine (X13_isAudioFile_needs_a_dot PlaylistCases.no_unicode
            "album.mp3" "README" eq_refl).
Defined.

(** X14 on an extension in capitals. *)
Lemma X14_witness :
  playlist.isAudioFile PlaylistCases.no_unicode
    ("Album/01 Intro" ++ "." ++ "MP3") = true
  <-> In (strings.lower_bytes "MP3") ["mp3"; "flac"; "wav"; "ogg"; "m4a"].
Proof.
  refine (X14_isAudioFile_by_lowercase_extension PlaylistCases.no_unicode
            "Album/01 Intro" "MP3" eq_refl eq_refl).
Defined.



